(** * ZDO commands of the XBee library: a shallow embedding of
    [digi/xbee/models/zdo.py] and the properties of its node-descriptor and
    route-table readers.

    Python objects are records, bytearrays are lists of integers, methods
    are computations in a state-and-exception monad whose state is the
    command object (together with the local radio it talks to), and the
    blocking wait of [_send_zdo] is the point where the environment delivers
    frames to [_zdo_packet_callback]. *)

From Stdlib Require Import ZArith List String Bool Lia DecimalString.
Import ListNotations.

Open Scope string_scope.
Open Scope list_scope.
Open Scope Z_scope.

(* ===================================================================== *)
(** ** Python values: exceptions, indexing, slicing, bytearrays          *)
(* ===================================================================== *)

Module Py.

(** The exceptions the module can meet. *)
Inductive exn : Type :=
| IndexError
| AttributeError
| ValueError (msg : string)
| OperationNotSupportedException (msg : string)
| XBeeException (msg : string).

Inductive result (A : Type) : Type :=
| Ok (a : A)
| Raise (e : exn).
Arguments Ok {A} a.
Arguments Raise {A} e.

(** A method of an object whose state has type [S]: it returns a value or
    raises, and in both cases leaves a state behind (what was assigned
    before a [raise] stays assigned). *)
Definition M (S A : Type) : Type := S -> result A * S.

Definition ret {S A} (a : A) : M S A := fun s => (Ok a, s).

Definition bind {S A B} (c : M S A) (k : A -> M S B) : M S B :=
  fun s => match c s with
           | (Ok a, s') => k a s'
           | (Raise e, s') => (Raise e, s')
           end.

Definition raise {S A} (e : exn) : M S A := fun s => (Raise e, s).
Definition get {S} : M S S := fun s => (Ok s, s).
Definition gets {S A} (f : S -> A) : M S A := fun s => (Ok (f s), s).
Definition modify {S} (f : S -> S) : M S unit := fun s => (Ok tt, f s).
Definition lift {S A} (r : result A) : M S A := fun s => (r, s).

(** [try: c except XBeeException as e: h e] *)
Definition try_except_XBeeException {S A} (c : M S A) (h : string -> M S A)
  : M S A :=
  fun s => match c s with
           | (Raise (XBeeException msg), s') => h msg s'
           | r => r
           end.

(** [try: c finally: f] *)
Definition try_finally {S A} (c : M S A) (f : M S unit) : M S A :=
  fun s => match c s with
           | (r, s') => match f s' with
                        | (Ok _, s'') => (r, s'')
                        | (Raise e, s'') => (Raise e, s'')
                        end
           end.

(** Sequencing of computations that only return or raise. *)
Definition result_bind {A B} (r : result A) (k : A -> result B) : result B :=
  match r with
  | Ok a => k a
  | Raise e => Raise e
  end.

(** [len(l)] *)
Definition len {A} (l : list A) : Z := Z.of_nat (List.length l).

(** [l[i]]: a negative index counts from the end, an index outside the
    list raises [IndexError]. *)
Definition getitem {A} (l : list A) (i : Z) : result A :=
  let j := if i <? 0 then len l + i else i in
  if j <? 0 then Raise IndexError
  else match nth_error l (Z.to_nat j) with
       | Some x => Ok x
       | None => Raise IndexError
       end.

(** Bounds of a slice are clipped to the list. *)
Definition clip (n i : Z) : Z :=
  if i <? 0 then Z.max 0 (n + i) else Z.min i n.

(** [l[a:b]] *)
Definition slice {A} (l : list A) (a b : Z) : list A :=
  let s := clip (len l) a in
  let e := clip (len l) b in
  firstn (Z.to_nat (e - s)) (skipn (Z.to_nat s) l).

(** [l[a:]] *)
Definition slice_from {A} (l : list A) (a : Z) : list A :=
  skipn (Z.to_nat (clip (len l) a)) l.

(** [bytearray([...])]: every item must be in [range(0, 256)]. *)
Definition is_byte (b : Z) : bool := (0 <=? b) && (b <? 256).

Definition bytearray (l : list Z) : result (list Z) :=
  if forallb is_byte l then Ok l
  else Raise (ValueError "byte must be in range(0, 256)").

(** [range(a, b)] *)
Definition range (a b : Z) : list Z :=
  map (fun i => a + Z.of_nat i) (seq 0 (Z.to_nat (b - a))).

(** ["%d" % n] *)
Definition str_of_int (n : Z) : string := NilZero.string_of_int (Z.to_int n).

(** Truth value of an optional string ([None] and [""] are false). *)
Definition truthy_str (s : option string) : bool :=
  match s with
  | None => false
  | Some EmptyString => false
  | Some _ => true
  end.

End Py.
Import Py.

Declare Scope py_scope.
Delimit Scope py_scope with py.
Notation "x <- c ;; k" := (bind c (fun x => k))
  (at level 61, c at next level, right associativity) : py_scope.
Notation "c ;; k" := (bind c (fun _ => k))
  (at level 61, right associativity) : py_scope.
Open Scope py_scope.

Declare Scope result_scope.
Delimit Scope result_scope with result.
Notation "x <- c ;; k" := (result_bind c (fun x => k))
  (at level 61, c at next level, right associativity) : result_scope.

(* ===================================================================== *)
(** ** Collaborators that are not part of [zdo.py]                       *)
(* ===================================================================== *)

Module utils.

(** Modelled from the spec: [digi.xbee.util.utils] is not among the
    sources.  The spec describes its helpers as pure functions that "test a
    single bit", "extract an N-bit field at a bit offset from a byte" and
    compose a multi-byte integer from bytes; [zdo.py] hands the bytes of a
    little-endian field to [bytes_to_int] most significant byte first. *)
Definition is_bit_enabled (number position : Z) : bool :=
  Z.land (Z.shiftr number position) 1 =? 1.

Definition get_int_from_byte (number offset length : Z) : Z :=
  Z.land (Z.shiftr number offset) (Z.ones length).

Definition bytes_to_int (byte_array : list Z) : Z :=
  fold_left (fun acc b => acc * 256 + b) byte_array 0.

End utils.

(** Modelled from the spec: [digi.xbee.models.address] is not among the
    sources.  A 16-bit address is its two bytes; two addresses are equal
    when their bytes are. A 64-bit address is its value. *)
Record XBee16BitAddress : Type := {
  get_hsb : Z;
  get_lsb : Z
}.

Module XBee16BitAddress.
Definition from_bytes (hsb lsb : Z) : XBee16BitAddress :=
  {| get_hsb := hsb; get_lsb := lsb |}.
Definition eqb (a b : XBee16BitAddress) : bool :=
  (get_hsb a =? get_hsb b) && (get_lsb a =? get_lsb b).
End XBee16BitAddress.

Definition XBee64BitAddress : Type := Z.

Module XBee64BitAddress.
Definition eqb (a b : XBee64BitAddress) : bool := Z.eqb a b.
End XBee64BitAddress.

(** Modelled from the spec: the protocols, link-layer statuses and frame
    kinds that [zdo.py] tells apart ([models/protocol.py],
    [models/status.py] and [packets/aft.py] are not among the sources). *)
Inductive XBeeProtocol : Type :=
| ZIGBEE
| SMART_ENERGY
| OTHER_PROTOCOL (description : string).

Inductive TransmitStatus : Type :=
| SUCCESS
| SELF_ADDRESSED
| OTHER_STATUS (description : string).

(** What the rest of the library fixes and [zdo.py] only names: the role
    enumeration with its lookup by identifier, the sentinel addresses and
    the output-mode value that asks for explicit frames. Every result below
    holds whatever these are. *)
Class Externals : Type := {
  Role : Type;
  Role_get : Z -> Role;
  Role_UNKNOWN : Role;
  X64_BROADCAST_ADDRESS : XBee64BitAddress;
  X64_UNKNOWN_ADDRESS : XBee64BitAddress;
  X16_BROADCAST_ADDRESS : XBee16BitAddress;
  X16_UNKNOWN_ADDRESS : XBee16BitAddress;
  calculate_api_output_mode_value : XBeeProtocol -> Z
}.

(* ===================================================================== *)
(** ** Devices, packets and the command object                           *)
(* ===================================================================== *)

(** Modelled from the spec: [digi.xbee.devices] is not among the sources.
    The target of a command, as far as [zdo.py] looks at it: whether it is
    remote, its two addresses and its protocol. *)
Record XBee : Type := {
  is_remote : bool;
  get_64bit_addr : XBee64BitAddress;
  get_16bit_addr : XBee16BitAddress;
  get_protocol : XBeeProtocol
}.

(** Modelled from the spec: [digi.xbee.packets.common] is not among the
    sources. The packet [zdo.py] builds with
    [ExplicitAddressingPacket(frame_id, x64, x16, src_ep, dst_ep, cluster,
    profile, broadcast_radius, transmit_options, rf_data)]: the arguments
    of the spec's [sendAddressedFrame]. *)
Record ExplicitAddressingPacket : Type := {
  frame_id : Z;
  x64bit_dest_addr : XBee64BitAddress;
  x16bit_dest_addr : XBee16BitAddress;
  source_endpoint : Z;
  dest_endpoint : Z;
  cluster_id : Z;
  profile_id : Z;
  broadcast_radius : Z;
  transmit_options : Z;
  rf_data : list Z
}.

(** Modelled from the spec: an explicit RX indicator, by the attributes
    the callback reads (source addresses, endpoints, cluster, profile,
    payload). *)
Record ExplicitRXIndicatorPacket : Type := {
  x64bit_source_addr : XBee64BitAddress;
  x16bit_source_addr : XBee16BitAddress;
  rx_source_endpoint : Z;
  rx_dest_endpoint : Z;
  rx_cluster_id : Z;
  rx_profile_id : Z;
  rx_rf_data : list Z
}.

(** Modelled from the spec: a received frame, by [get_frame_type()]: an
    application answer, a transmit status with its [frame_id] and
    [transmit_status], or any other frame. *)
Inductive XBeeAPIPacket : Type :=
| EXPLICIT_RX_INDICATOR (frame : ExplicitRXIndicatorPacket)
| TRANSMIT_STATUS (status_frame_id : Z) (transmit_status : TransmitStatus)
| OTHER_FRAME.

(** Modelled from the spec: the local radio the command goes through (the
    spec's transport: send a frame, register and deregister a listener, get
    and set the output-mode register, the last two "capable of failing").
    It is what it has been asked to send, how many times the callback is
    registered, its AO register, and, for each operation that can fail, the
    outcomes of its next calls ([Some msg]: the call raises
    [XBeeException(msg)]; [None], or no entry left: it succeeds). *)
Record LocalXBee : Type := {
  sent_packets : list ExplicitAddressingPacket;
  packet_received_callbacks : nat;
  api_output_mode_value : list Z;
  send_packet_errors : list (option string);
  get_api_output_mode_errors : list (option string);
  set_api_output_mode_errors : list (option string)
}.

Definition xb_send (p : ExplicitAddressingPacket) (d : LocalXBee) : LocalXBee :=
  {| sent_packets := sent_packets d ++ [p];
     packet_received_callbacks := packet_received_callbacks d;
     api_output_mode_value := api_output_mode_value d;
     send_packet_errors := send_packet_errors d;
     get_api_output_mode_errors := get_api_output_mode_errors d;
     set_api_output_mode_errors := set_api_output_mode_errors d |}.

Definition xb_set_callbacks (n : nat) (d : LocalXBee) : LocalXBee :=
  {| sent_packets := sent_packets d;
     packet_received_callbacks := n;
     api_output_mode_value := api_output_mode_value d;
     send_packet_errors := send_packet_errors d;
     get_api_output_mode_errors := get_api_output_mode_errors d;
     set_api_output_mode_errors := set_api_output_mode_errors d |}.

Definition xb_set_ao (v : list Z) (d : LocalXBee) : LocalXBee :=
  {| sent_packets := sent_packets d;
     packet_received_callbacks := packet_received_callbacks d;
     api_output_mode_value := v;
     send_packet_errors := send_packet_errors d;
     get_api_output_mode_errors := get_api_output_mode_errors d;
     set_api_output_mode_errors := set_api_output_mode_errors d |}.

(** The outcome of a call is used up by the call. *)
Definition xb_next_send (d : LocalXBee) : LocalXBee :=
  {| sent_packets := sent_packets d;
     packet_received_callbacks := packet_received_callbacks d;
     api_output_mode_value := api_output_mode_value d;
     send_packet_errors := tl (send_packet_errors d);
     get_api_output_mode_errors := get_api_output_mode_errors d;
     set_api_output_mode_errors := set_api_output_mode_errors d |}.

Definition xb_next_get_ao (d : LocalXBee) : LocalXBee :=
  {| sent_packets := sent_packets d;
     packet_received_callbacks := packet_received_callbacks d;
     api_output_mode_value := api_output_mode_value d;
     send_packet_errors := send_packet_errors d;
     get_api_output_mode_errors := tl (get_api_output_mode_errors d);
     set_api_output_mode_errors := set_api_output_mode_errors d |}.

Definition xb_next_set_ao (d : LocalXBee) : LocalXBee :=
  {| sent_packets := sent_packets d;
     packet_received_callbacks := packet_received_callbacks d;
     api_output_mode_value := api_output_mode_value d;
     send_packet_errors := send_packet_errors d;
     get_api_output_mode_errors := get_api_output_mode_errors d;
     set_api_output_mode_errors := tl (set_api_output_mode_errors d) |}.

(** The outcome of the next call, from the list of outcomes. *)
Definition next_outcome (outcomes : list (option string)) : option string :=
  match outcomes with
  | Some msg :: _ => Some msg
  | _ => None
  end.

(** The attributes of [__ZDOCommand]; [vars] holds those the subclass adds,
    [xb] the local radio ([self._xbee] or its [get_local_xbee_device()]),
    and [zdo_callback_calls] the error argument of every call of the
    caller's [zdo_callback]. *)
Record ZDOCommand (V : Type) : Type := {
  _xbee : XBee;
  __cluster_id : Z;
  __receive_cluster_id : Z;
  __configure_ao : bool;
  __timeout : Z;
  __saved_ao : option (list Z);
  _running : bool;
  _error : option string;
  __zdo_thread : bool;
  _lock : bool;
  _received_status : bool;
  _received_answer : bool;
  _data_parsed : bool;
  _current_transaction_id : Z;
  vars : V;
  xb : LocalXBee;
  zdo_callback_calls : list (option string)
}.
Arguments _xbee {V} _.
Arguments __cluster_id {V} _.
Arguments __receive_cluster_id {V} _.
Arguments __configure_ao {V} _.
Arguments __timeout {V} _.
Arguments __saved_ao {V} _.
Arguments _running {V} _.
Arguments _error {V} _.
Arguments __zdo_thread {V} _.
Arguments _lock {V} _.
Arguments _received_status {V} _.
Arguments _received_answer {V} _.
Arguments _data_parsed {V} _.
Arguments _current_transaction_id {V} _.
Arguments vars {V} _.
Arguments xb {V} _.
Arguments zdo_callback_calls {V} _.

Definition set_saved_ao {V} (x : option (list Z)) (s : ZDOCommand V) : ZDOCommand V :=
  {| _xbee := _xbee s;
     __cluster_id := __cluster_id s;
     __receive_cluster_id := __receive_cluster_id s;
     __configure_ao := __configure_ao s;
     __timeout := __timeout s;
     __saved_ao := x;
     _running := _running s;
     _error := _error s;
     __zdo_thread := __zdo_thread s;
     _lock := _lock s;
     _received_status := _received_status s;
     _received_answer := _received_answer s;
     _data_parsed := _data_parsed s;
     _current_transaction_id := _current_transaction_id s;
     vars := vars s;
     xb := xb s;
     zdo_callback_calls := zdo_callback_calls s |}.

Definition set_running {V} (x : bool) (s : ZDOCommand V) : ZDOCommand V :=
  {| _xbee := _xbee s;
     __cluster_id := __cluster_id s;
     __receive_cluster_id := __receive_cluster_id s;
     __configure_ao := __configure_ao s;
     __timeout := __timeout s;
     __saved_ao := __saved_ao s;
     _running := x;
     _error := _error s;
     __zdo_thread := __zdo_thread s;
     _lock := _lock s;
     _received_status := _received_status s;
     _received_answer := _received_answer s;
     _data_parsed := _data_parsed s;
     _current_transaction_id := _current_transaction_id s;
     vars := vars s;
     xb := xb s;
     zdo_callback_calls := zdo_callback_calls s |}.

Definition set_error {V} (x : option string) (s : ZDOCommand V) : ZDOCommand V :=
  {| _xbee := _xbee s;
     __cluster_id := __cluster_id s;
     __receive_cluster_id := __receive_cluster_id s;
     __configure_ao := __configure_ao s;
     __timeout := __timeout s;
     __saved_ao := __saved_ao s;
     _running := _running s;
     _error := x;
     __zdo_thread := __zdo_thread s;
     _lock := _lock s;
     _received_status := _received_status s;
     _received_answer := _received_answer s;
     _data_parsed := _data_parsed s;
     _current_transaction_id := _current_transaction_id s;
     vars := vars s;
     xb := xb s;
     zdo_callback_calls := zdo_callback_calls s |}.

Definition set_zdo_thread {V} (x : bool) (s : ZDOCommand V) : ZDOCommand V :=
  {| _xbee := _xbee s;
     __cluster_id := __cluster_id s;
     __receive_cluster_id := __receive_cluster_id s;
     __configure_ao := __configure_ao s;
     __timeout := __timeout s;
     __saved_ao := __saved_ao s;
     _running := _running s;
     _error := _error s;
     __zdo_thread := x;
     _lock := _lock s;
     _received_status := _received_status s;
     _received_answer := _received_answer s;
     _data_parsed := _data_parsed s;
     _current_transaction_id := _current_transaction_id s;
     vars := vars s;
     xb := xb s;
     zdo_callback_calls := zdo_callback_calls s |}.

Definition set_lock {V} (x : bool) (s : ZDOCommand V) : ZDOCommand V :=
  {| _xbee := _xbee s;
     __cluster_id := __cluster_id s;
     __receive_cluster_id := __receive_cluster_id s;
     __configure_ao := __configure_ao s;
     __timeout := __timeout s;
     __saved_ao := __saved_ao s;
     _running := _running s;
     _error := _error s;
     __zdo_thread := __zdo_thread s;
     _lock := x;
     _received_status := _received_status s;
     _received_answer := _received_answer s;
     _data_parsed := _data_parsed s;
     _current_transaction_id := _current_transaction_id s;
     vars := vars s;
     xb := xb s;
     zdo_callback_calls := zdo_callback_calls s |}.

Definition set_received_status {V} (x : bool) (s : ZDOCommand V) : ZDOCommand V :=
  {| _xbee := _xbee s;
     __cluster_id := __cluster_id s;
     __receive_cluster_id := __receive_cluster_id s;
     __configure_ao := __configure_ao s;
     __timeout := __timeout s;
     __saved_ao := __saved_ao s;
     _running := _running s;
     _error := _error s;
     __zdo_thread := __zdo_thread s;
     _lock := _lock s;
     _received_status := x;
     _received_answer := _received_answer s;
     _data_parsed := _data_parsed s;
     _current_transaction_id := _current_transaction_id s;
     vars := vars s;
     xb := xb s;
     zdo_callback_calls := zdo_callback_calls s |}.

Definition set_received_answer {V} (x : bool) (s : ZDOCommand V) : ZDOCommand V :=
  {| _xbee := _xbee s;
     __cluster_id := __cluster_id s;
     __receive_cluster_id := __receive_cluster_id s;
     __configure_ao := __configure_ao s;
     __timeout := __timeout s;
     __saved_ao := __saved_ao s;
     _running := _running s;
     _error := _error s;
     __zdo_thread := __zdo_thread s;
     _lock := _lock s;
     _received_status := _received_status s;
     _received_answer := x;
     _data_parsed := _data_parsed s;
     _current_transaction_id := _current_transaction_id s;
     vars := vars s;
     xb := xb s;
     zdo_callback_calls := zdo_callback_calls s |}.

Definition set_data_parsed {V} (x : bool) (s : ZDOCommand V) : ZDOCommand V :=
  {| _xbee := _xbee s;
     __cluster_id := __cluster_id s;
     __receive_cluster_id := __receive_cluster_id s;
     __configure_ao := __configure_ao s;
     __timeout := __timeout s;
     __saved_ao := __saved_ao s;
     _running := _running s;
     _error := _error s;
     __zdo_thread := __zdo_thread s;
     _lock := _lock s;
     _received_status := _received_status s;
     _received_answer := _received_answer s;
     _data_parsed := x;
     _current_transaction_id := _current_transaction_id s;
     vars := vars s;
     xb := xb s;
     zdo_callback_calls := zdo_callback_calls s |}.

Definition set_vars {V} (x : V) (s : ZDOCommand V) : ZDOCommand V :=
  {| _xbee := _xbee s;
     __cluster_id := __cluster_id s;
     __receive_cluster_id := __receive_cluster_id s;
     __configure_ao := __configure_ao s;
     __timeout := __timeout s;
     __saved_ao := __saved_ao s;
     _running := _running s;
     _error := _error s;
     __zdo_thread := __zdo_thread s;
     _lock := _lock s;
     _received_status := _received_status s;
     _received_answer := _received_answer s;
     _data_parsed := _data_parsed s;
     _current_transaction_id := _current_transaction_id s;
     vars := x;
     xb := xb s;
     zdo_callback_calls := zdo_callback_calls s |}.

Definition set_xb {V} (x : LocalXBee) (s : ZDOCommand V) : ZDOCommand V :=
  {| _xbee := _xbee s;
     __cluster_id := __cluster_id s;
     __receive_cluster_id := __receive_cluster_id s;
     __configure_ao := __configure_ao s;
     __timeout := __timeout s;
     __saved_ao := __saved_ao s;
     _running := _running s;
     _error := _error s;
     __zdo_thread := __zdo_thread s;
     _lock := _lock s;
     _received_status := _received_status s;
     _received_answer := _received_answer s;
     _data_parsed := _data_parsed s;
     _current_transaction_id := _current_transaction_id s;
     vars := vars s;
     xb := x;
     zdo_callback_calls := zdo_callback_calls s |}.

Definition set_zdo_callback_calls {V} (x : list (option string)) (s : ZDOCommand V) : ZDOCommand V :=
  {| _xbee := _xbee s;
     __cluster_id := __cluster_id s;
     __receive_cluster_id := __receive_cluster_id s;
     __configure_ao := __configure_ao s;
     __timeout := __timeout s;
     __saved_ao := __saved_ao s;
     _running := _running s;
     _error := _error s;
     __zdo_thread := __zdo_thread s;
     _lock := _lock s;
     _received_status := _received_status s;
     _received_answer := _received_answer s;
     _data_parsed := _data_parsed s;
     _current_transaction_id := _current_transaction_id s;
     vars := vars s;
     xb := xb s;
     zdo_callback_calls := x |}.

(* ===================================================================== *)
(** ** [class __ZDOCommand]                                              *)
(* ===================================================================== *)

Definition _SOURCE_ENDPOINT : Z := 0x00.
Definition _DESTINATION_ENDPOINT : Z := 0x00.
Definition _PROFILE_ID : Z := 0x0000.
Definition __STATUS_SUCCESS : Z := 0x00.
(** Modelled from the spec: [TransmitOptions.NONE.value] of
    [models/options.py], no option set. *)
Definition TransmitOptions_NONE : Z := 0x00.

(** The abstract methods, in two groups (those that build the request, and
    the rest) so that a subclass can call [_generate_zdo_packet] from its
    own [_parse_data]; and [_notify_process_finished], which a subclass may
    override. [zdo_callback] is passed as "was one given". *)
Class ZDORequest (V : Type) : Type := {
  _is_broadcast : ZDOCommand V -> bool;
  _get_zdo_command_data : M (ZDOCommand V) (list Z)
}.

Class ZDOVariant (V : Type) `{ZDORequest V} : Type := {
  _init_variables : M (ZDOCommand V) unit;
  _parse_data : list Z -> M (ZDOCommand V) bool;
  _perform_finish_actions : M (ZDOCommand V) unit;
  _notify_process_finished : bool -> M (ZDOCommand V) unit
}.

(** What the environment does while [_send_zdo] waits: the frames the
    network delivers in answer to each packet the radio sent, and how many
    deliveries fit in the command's timeout. *)
Record Environment : Type := {
  answer : ExplicitAddressingPacket -> list XBeeAPIPacket;
  patience : nat
}.

(** The concrete classes of the module, and the class attribute
    [__global_transaction_id] (in the body of [__ZDOCommand] and in its
    methods alike the name stands for [_ZDOCommand__global_transaction_id]):
    the one [__ZDOCommand] defines, and the one each subclass has once it
    has been assigned through that subclass. Reading an attribute of a
    class that has none of its own finds the base class's; assigning it
    creates or replaces the class's own. *)
Inductive ZDOClass : Type :=
| class_NodeDescriptorReader
| class_RouteTableReader.

Record ClassAttributes : Type := {
  ZDOCommand__global_transaction_id : Z;
  NodeDescriptorReader__global_transaction_id : option Z;
  RouteTableReader__global_transaction_id : option Z
}.

(** The attributes when the module has just been loaded. *)
Definition module_loaded : ClassAttributes :=
  {| ZDOCommand__global_transaction_id := 1;
     NodeDescriptorReader__global_transaction_id := None;
     RouteTableReader__global_transaction_id := None |}.

Definition own__global_transaction_id (c : ZDOClass) (a : ClassAttributes)
  : option Z :=
  match c with
  | class_NodeDescriptorReader => NodeDescriptorReader__global_transaction_id a
  | class_RouteTableReader => RouteTableReader__global_transaction_id a
  end.

Definition getattr (c : ZDOClass) (a : ClassAttributes) : Z :=
  match own__global_transaction_id c a with
  | Some v => v
  | None => ZDOCommand__global_transaction_id a
  end.

Definition setattr (c : ZDOClass) (v : Z) (a : ClassAttributes)
  : ClassAttributes :=
  match c with
  | class_NodeDescriptorReader =>
      {| ZDOCommand__global_transaction_id :=
           ZDOCommand__global_transaction_id a;
         NodeDescriptorReader__global_transaction_id := Some v;
         RouteTableReader__global_transaction_id :=
           RouteTableReader__global_transaction_id a |}
  | class_RouteTableReader =>
      {| ZDOCommand__global_transaction_id :=
           ZDOCommand__global_transaction_id a;
         NodeDescriptorReader__global_transaction_id :=
           NodeDescriptorReader__global_transaction_id a;
         RouteTableReader__global_transaction_id := Some v |}
  end.

Section ZDOCommand.
Context {E : Externals} {V : Type}.

#[local] Abbreviation Cmd := (ZDOCommand V).

(** The constructor reads and writes [__global_transaction_id] through
    [self.__class__]. *)
Definition __init__ (self__class__ : ZDOClass) (xbee : option XBee)
    (cluster_id receive_cluster_id : Z) (configure_ao : bool) (timeout : Z)
    (subclass_vars : V) (radio : LocalXBee)
  : M ClassAttributes Cmd :=
  match xbee with
  | None => raise (ValueError "XBee cannot be None")
  | Some xbee =>
    match get_protocol xbee with
    | OTHER_PROTOCOL description =>
        raise (OperationNotSupportedException
                 (String.append "ZDO commands are not supported in " description))
    | _ =>
      if cluster_id <? 0 then raise (ValueError "Cluster id cannot be negative")
      else if receive_cluster_id <? 0
      then raise (ValueError "Receive cluster id cannot be negative")
      else if timeout <? 0 then raise (ValueError "Timeout cannot be negative")
      else
        current_transaction_id <- gets (getattr self__class__) ;;
        modify (fun a => setattr self__class__ (getattr self__class__ a + 1) a) ;;
        g <- gets (getattr self__class__) ;;
        (if g =? 0xFF then modify (setattr self__class__ 1) else ret tt) ;;
        ret {| _xbee := xbee;
               __cluster_id := cluster_id;
               __receive_cluster_id := receive_cluster_id;
               __configure_ao := configure_ao;
               __timeout := timeout;
               __saved_ao := None;
               _running := false;
               _error := None;
               __zdo_thread := false;
               _lock := false;
               _received_status := false;
               _received_answer := false;
               _data_parsed := false;
               _current_transaction_id := current_transaction_id;
               vars := subclass_vars;
               xb := radio;
               zdo_callback_calls := [] |}
    end
  end.

(** [stop]: sets the event. Joining the worker thread only waits for the
    rest of [_send_zdo], which here runs when the wait returns. *)
Definition stop : M Cmd unit :=
  s <- get ;;
  (if negb (_lock s) then modify (set_lock true) else ret tt) ;;
  s <- get ;;
  if __zdo_thread s && _running s then modify (set_zdo_thread false)
  else ret tt.

(** [xb.send_packet(p)] *)
Definition send_packet (p : ExplicitAddressingPacket) : M Cmd unit :=
  s <- get ;;
  modify (set_xb (xb_next_send (xb s))) ;;
  match next_outcome (send_packet_errors (xb s)) with
  | Some msg => raise (XBeeException msg)
  | None => modify (fun s => set_xb (xb_send p (xb s)) s)
  end.

(** [xb.get_api_output_mode_value()] *)
Definition get_api_output_mode_value : M Cmd (list Z) :=
  s <- get ;;
  modify (set_xb (xb_next_get_ao (xb s))) ;;
  match next_outcome (get_api_output_mode_errors (xb s)) with
  | Some msg => raise (XBeeException msg)
  | None => ret (api_output_mode_value (xb s))
  end.

(** [xb.set_api_output_mode_value(value)] *)
Definition set_api_output_mode_value (value : Z) : M Cmd unit :=
  s <- get ;;
  modify (set_xb (xb_next_set_ao (xb s))) ;;
  match next_outcome (set_api_output_mode_errors (xb s)) with
  | Some msg => raise (XBeeException msg)
  | None => modify (fun s => set_xb (xb_set_ao [value] (xb s)) s)
  end.

Definition add_packet_received_callback : M Cmd unit :=
  modify (fun s => set_xb (xb_set_callbacks
                             (S (packet_received_callbacks (xb s))) (xb s)) s).

Definition del_packet_received_callback : M Cmd unit :=
  modify (fun s => set_xb (xb_set_callbacks
                             (Nat.pred (packet_received_callbacks (xb s))) (xb s)) s).

(** The base-class [_notify_process_finished]. *)
Definition ZDOCommand_notify_process_finished (zdo_callback : bool)
  : M Cmd unit :=
  if zdo_callback
  then modify (fun s => set_zdo_callback_calls
                          (zdo_callback_calls s ++ [_error s]) s)
  else ret tt.

Definition __prepare_device : M Cmd unit :=
  s <- get ;;
  if negb (__configure_ao s) then ret tt
  else
    try_except_XBeeException
      (ao <- get_api_output_mode_value ;;
       modify (set_saved_ao (Some ao)) ;;
       b <- lift (getitem ao 0) ;;
       if utils.is_bit_enabled b 0 then modify (set_saved_ao None)
       else
         let value := calculate_api_output_mode_value (get_protocol (_xbee s)) in
         set_api_output_mode_value value)
      (fun e => raise (XBeeException
                         (String.append "Could not prepare XBee for ZDO: " e))).

Definition __restore_device : M Cmd unit :=
  s <- get ;;
  match __configure_ao s, __saved_ao s with
  | false, _ | _, None => ret tt
  | true, Some saved_ao =>
      try_except_XBeeException
        (v <- lift (getitem saved_ao 0) ;;
         set_api_output_mode_value v)
        (fun e => modify (set_error
                   (Some (String.append "Could not restore XBee after ZDO: " e))))
  end.

Context {request : ZDORequest V}.

Definition _generate_zdo_packet : M Cmd ExplicitAddressingPacket :=
  s <- get ;;
  let (addr64, addr16) :=
    if _is_broadcast s then (X64_BROADCAST_ADDRESS, X16_BROADCAST_ADDRESS)
    else (get_64bit_addr (_xbee s), get_16bit_addr (_xbee s)) in
  data <- _get_zdo_command_data ;;
  ret {| frame_id := _current_transaction_id s;
         x64bit_dest_addr := addr64;
         x16bit_dest_addr := addr16;
         source_endpoint := _SOURCE_ENDPOINT;
         dest_endpoint := _DESTINATION_ENDPOINT;
         cluster_id := __cluster_id s;
         profile_id := _PROFILE_ID;
         broadcast_radius := 0;
         transmit_options := TransmitOptions_NONE;
         rf_data := data |}.

(** The address test of the callback: the frame is dropped when it holds. *)
Definition address_mismatch (s : Cmd) (frame : ExplicitRXIndicatorPacket)
  : bool :=
  let x64 := get_64bit_addr (_xbee s) in
  let x16 := get_16bit_addr (_xbee s) in
  negb (_is_broadcast s)
  && negb (XBee64BitAddress.eqb x64 X64_UNKNOWN_ADDRESS)
  && negb (XBee64BitAddress.eqb x64 (x64bit_source_addr frame))
  && negb (XBee16BitAddress.eqb x16 X16_UNKNOWN_ADDRESS)
  && negb (XBee16BitAddress.eqb x16 (x16bit_source_addr frame)).

Context {variant : ZDOVariant V}.

Definition _zdo_packet_callback (frame : XBeeAPIPacket) : M Cmd unit :=
  s <- get ;;
  if negb (_running s) then ret tt
  else
    match frame with
    | EXPLICIT_RX_INDICATOR frame =>
      if address_mismatch s frame then ret tt
      else if negb (rx_profile_id frame =? _PROFILE_ID)
              || negb (rx_source_endpoint frame =? _SOURCE_ENDPOINT)
              || negb (rx_dest_endpoint frame =? _DESTINATION_ENDPOINT)
      then ret tt
      else if negb (rx_cluster_id frame =? __receive_cluster_id s) then ret tt
      else
        tid <- lift (getitem (rx_rf_data frame) 0) ;;
        if negb (tid =? _current_transaction_id s) then ret tt
        else
          modify (set_received_answer true) ;;
          status <- lift (getitem (rx_rf_data frame) 1) ;;
          if negb (status =? __STATUS_SUCCESS) then
            modify (set_error
              (Some (String.append "Error executing ZDO command (status: "
                       (String.append (str_of_int status) ")")))) ;;
            stop
          else
            parsed <- _parse_data (slice_from (rx_rf_data frame) 2) ;;
            modify (set_data_parsed parsed) ;;
            s <- get ;;
            if _data_parsed s && _received_status s then stop else ret tt
    | TRANSMIT_STATUS status_frame_id transmit_status =>
      if negb (status_frame_id =? _current_transaction_id s) then ret tt
      else
        modify (set_received_status true) ;;
        match transmit_status with
        | OTHER_STATUS description =>
            modify (set_error
              (Some (String.append "Error sending ZDO command: " description))) ;;
            stop
        | _ => ret tt
        end ;;
        s <- get ;;
        if _data_parsed s then stop else ret tt
    | OTHER_FRAME => ret tt
    end.

(** A frame handed to the callback by the radio's reader thread: what the
    callback raises stays on that thread. *)
Definition deliver (frame : XBeeAPIPacket) : M Cmd unit :=
  fun s => (Ok tt, snd (_zdo_packet_callback frame s)).

(** [self._lock.wait(self.__timeout)]: until the event is set, frames
    answering the packets sent from number [handled] on are delivered one by
    one; the wait also ends when nothing is left to arrive or the timeout's
    [budget] of steps is used up. *)
Fixpoint _lock_wait (answer : ExplicitAddressingPacket -> list XBeeAPIPacket)
    (budget : nat) (handled : nat) (pending : list XBeeAPIPacket)
  : M Cmd unit :=
  match budget with
  | O => ret tt
  | S budget =>
    s <- get ;;
    if _lock s then ret tt
    else
      match pending with
      | frame :: pending =>
          deliver frame ;;
          _lock_wait answer budget handled pending
      | [] =>
          match nth_error (sent_packets (xb s)) handled with
          | Some p => _lock_wait answer budget (S handled) (answer p)
          | None => ret tt
          end
      end
  end.

(** [_send_zdo], the statements of the [try] block that follow the wait. *)
Definition _send_zdo_after_wait : M Cmd unit :=
  s <- get ;;
  if negb (_received_status s) then
    if negb (truthy_str (_error s))
    then modify (set_error (Some "ZDO command not sent"))
    else ret tt
  else if negb (_received_answer s) then
    if negb (truthy_str (_error s))
    then modify (set_error (Some "ZDO command answer not received"))
    else ret tt
  else _perform_finish_actions.

(** [_send_zdo], the [finally] block. *)
Definition _send_zdo_finally (zdo_callback : bool) : M Cmd unit :=
  del_packet_received_callback ;;
  __restore_device ;;
  _notify_process_finished zdo_callback ;;
  modify (set_running false).

Definition _send_zdo (zdo_callback : bool) (env : Environment) : M Cmd unit :=
  modify (set_running true) ;;
  modify (set_error None) ;;
  modify (set_received_status false) ;;
  modify (set_received_answer false) ;;
  modify (set_data_parsed false) ;;
  modify (set_lock false) ;;
  add_packet_received_callback ;;
  _init_variables ;;
  try_finally
    (try_except_XBeeException
       (__prepare_device ;;
        already_sent <- gets (fun s => List.length (sent_packets (xb s))) ;;
        p <- _generate_zdo_packet ;;
        send_packet p ;;
        _lock_wait (answer env) (patience env) already_sent [] ;;
        _send_zdo_after_wait)
       (fun e => modify (set_error
                   (Some (String.append "Error sending ZDO command: " e)))))
    (_send_zdo_finally zdo_callback).

Definition _start_process (sync : bool) (zdo_callback : bool)
    (env : Environment) : M Cmd unit :=
  (if negb sync then modify (set_zdo_thread true) else ret tt) ;;
  _send_zdo zdo_callback env.

End ZDOCommand.

(* ===================================================================== *)
(** ** [class NodeDescriptor] and [class NodeDescriptorReader]           *)
(* ===================================================================== *)

Section NodeDescriptorReader.
Context {E : Externals}.

Record NodeDescriptor : Type := {
  role : Role;
  complex_desc_supported : bool;
  user_desc_supported : bool;
  freq_band : list Z;
  mac_capabilities : list Z;
  manufacturer_code : Z;
  max_buffer_size : Z;
  max_in_transfer_size : Z;
  max_out_transfer_size : Z;
  desc_capabilities : list Z
}.

(** The attributes the reader adds; [__role] has no value before
    [_init_variables]. *)
Record NodeDescriptorReader_vars : Type := {
  __node_descriptor : option NodeDescriptor;
  __role : option Role
}.

#[local] Abbreviation NodeDescriptorReader :=
  (ZDOCommand NodeDescriptorReader_vars).

Definition NodeDescriptorReader__CLUSTER_ID : Z := 0x0002.
Definition NodeDescriptorReader__RECEIVE_CLUSTER_ID : Z := 0x8002.
Definition NodeDescriptorReader__DEFAULT_TIMEOUT : Z := 20.

Definition NodeDescriptorReader__init__ (xbee : option XBee)
    (configure_ao : bool) (timeout : Z) (radio : LocalXBee)
  : M ClassAttributes NodeDescriptorReader :=
  __init__ class_NodeDescriptorReader xbee NodeDescriptorReader__CLUSTER_ID
    NodeDescriptorReader__RECEIVE_CLUSTER_ID configure_ao timeout
    {| __node_descriptor := None; __role := None |} radio.

Definition __to_bits (data_byte : Z) : list Z :=
  map (fun i => Z.land (Z.shiftr data_byte i) 1) (range 0 8).

Definition NodeDescriptorReader_init_variables : M NodeDescriptorReader unit :=
  modify (fun s => set_vars
            {| __node_descriptor := __node_descriptor (vars s);
               __role := Some Role_UNKNOWN |} s).

Definition NodeDescriptorReader_get_zdo_command_data
  : M NodeDescriptorReader (list Z) :=
  s <- get ;;
  lift (bytearray [_current_transaction_id s;
                   get_lsb (get_16bit_addr (_xbee s));
                   get_hsb (get_16bit_addr (_xbee s))]).

Definition NodeDescriptorReader_parse_data (data : list Z)
  : M NodeDescriptorReader bool :=
  d1 <- lift (getitem data 1) ;;
  d0 <- lift (getitem data 0) ;;
  let x16 := XBee16BitAddress.from_bytes d1 d0 in
  s <- get ;;
  if negb (XBee16BitAddress.eqb x16 (get_16bit_addr (_xbee s))) then ret false
  else
    d2 <- lift (getitem data 2) ;;
    let role := Role_get (utils.get_int_from_byte d2 0 3) in
    d2 <- lift (getitem data 2) ;;
    let complex_desc_available := utils.is_bit_enabled d2 3 in
    d2 <- lift (getitem data 2) ;;
    let user_desc_available := utils.is_bit_enabled d2 4 in
    d3 <- lift (getitem data 3) ;;
    let freq_band := slice_from (__to_bits d3) (-5) in
    d4 <- lift (getitem data 4) ;;
    let mac_capabilities := __to_bits d4 in
    d6 <- lift (getitem data 6) ;;
    d5 <- lift (getitem data 5) ;;
    let manufacturer_code := utils.bytes_to_int [d6; d5] in
    d7 <- lift (getitem data 7) ;;
    let max_buffer_size := d7 in
    d9 <- lift (getitem data 9) ;;
    d8 <- lift (getitem data 8) ;;
    let max_in_transfer_size := utils.bytes_to_int [d9; d8] in
    d13 <- lift (getitem data 13) ;;
    d12 <- lift (getitem data 12) ;;
    let max_out_transfer_size := utils.bytes_to_int [d13; d12] in
    d14 <- lift (getitem data 14) ;;
    let desc_capabilities := __to_bits d14 in
    modify (fun s => set_vars
              {| __node_descriptor :=
                   Some {| role := role;
                           complex_desc_supported := complex_desc_available;
                           user_desc_supported := user_desc_available;
                           freq_band := freq_band;
                           mac_capabilities := mac_capabilities;
                           manufacturer_code := manufacturer_code;
                           max_buffer_size := max_buffer_size;
                           max_in_transfer_size := max_in_transfer_size;
                           max_out_transfer_size := max_out_transfer_size;
                           desc_capabilities := desc_capabilities |};
                 __role := __role (vars s) |} s) ;;
    ret true.

#[export] Instance NodeDescriptorReader_request
  : ZDORequest NodeDescriptorReader_vars := {
  _is_broadcast := fun _ => false;
  _get_zdo_command_data := NodeDescriptorReader_get_zdo_command_data
}.

#[export] Instance NodeDescriptorReader_variant
  : ZDOVariant NodeDescriptorReader_vars := {
  _init_variables := NodeDescriptorReader_init_variables;
  _parse_data := NodeDescriptorReader_parse_data;
  _perform_finish_actions := ret tt;
  _notify_process_finished := ZDOCommand_notify_process_finished
}.

Definition get_node_descriptor (env : Environment)
  : M NodeDescriptorReader (option NodeDescriptor) :=
  _start_process true false env ;;
  gets (fun s => __node_descriptor (vars s)).

End NodeDescriptorReader.

(* ===================================================================== *)
(** ** [class RouteStatus], [class Route], [class RouteTableReader]      *)
(* ===================================================================== *)

Inductive RouteStatus : Type :=
| ACTIVE
| DISCOVERY_UNDERWAY
| DISCOVERY_FAILED
| INACTIVE
| VALIDATION_UNDERWAY
| UNKNOWN.

Module RouteStatus.

Definition id (item : RouteStatus) : Z :=
  match item with
  | ACTIVE => 0
  | DISCOVERY_UNDERWAY => 1
  | DISCOVERY_FAILED => 2
  | INACTIVE => 3
  | VALIDATION_UNDERWAY => 4
  | UNKNOWN => -1
  end.

Definition name (item : RouteStatus) : string :=
  match item with
  | ACTIVE => "Active"
  | DISCOVERY_UNDERWAY => "Discovery Underway"
  | DISCOVERY_FAILED => "Discovery Failed"
  | INACTIVE => "Inactive"
  | VALIDATION_UNDERWAY => "Validation Underway"
  | UNKNOWN => "Unknown"
  end.

(** The members, in the order of their definition ([for item in cls]). *)
Definition members : list RouteStatus :=
  [ACTIVE; DISCOVERY_UNDERWAY; DISCOVERY_FAILED; INACTIVE;
   VALIDATION_UNDERWAY; UNKNOWN].

(** [None] when no member has the identifier. *)
Definition get (identifier : Z) : option RouteStatus :=
  find (fun item => identifier =? id item) members.

End RouteStatus.

Record Route : Type := {
  destination : XBee16BitAddress;
  next_hop : XBee16BitAddress;
  status : option RouteStatus;
  is_low_memory : bool;
  is_many_to_one : bool;
  is_route_record_required : bool
}.

(** The attributes the reader adds. [__cb] says whether a route callback
    was given; [route_callback_calls] and [process_finished_calls] record
    the arguments of the calls of the caller's two callbacks. *)
Record RouteTableReader_vars : Type := {
  __routes : option (list Route);
  __total_routes : Z;
  __index : Z;
  __cb : bool;
  route_callback_calls : list Route;
  process_finished_calls : list (option (list Route) * option string)
}.

Definition set_routes (x : option (list Route)) (v : RouteTableReader_vars) :=
  {| __routes := x;
     __total_routes := __total_routes v;
     __index := __index v;
     __cb := __cb v;
     route_callback_calls := route_callback_calls v;
     process_finished_calls := process_finished_calls v |}.

Definition set_total_routes (x : Z) (v : RouteTableReader_vars) :=
  {| __routes := __routes v;
     __total_routes := x;
     __index := __index v;
     __cb := __cb v;
     route_callback_calls := route_callback_calls v;
     process_finished_calls := process_finished_calls v |}.

Definition set_index (x : Z) (v : RouteTableReader_vars) :=
  {| __routes := __routes v;
     __total_routes := __total_routes v;
     __index := x;
     __cb := __cb v;
     route_callback_calls := route_callback_calls v;
     process_finished_calls := process_finished_calls v |}.

Definition set_cb (x : bool) (v : RouteTableReader_vars) :=
  {| __routes := __routes v;
     __total_routes := __total_routes v;
     __index := __index v;
     __cb := x;
     route_callback_calls := route_callback_calls v;
     process_finished_calls := process_finished_calls v |}.

Definition set_route_callback_calls (x : list Route) (v : RouteTableReader_vars) :=
  {| __routes := __routes v;
     __total_routes := __total_routes v;
     __index := __index v;
     __cb := __cb v;
     route_callback_calls := x;
     process_finished_calls := process_finished_calls v |}.

Definition set_process_finished_calls
    (x : list (option (list Route) * option string))
    (v : RouteTableReader_vars) :=
  {| __routes := __routes v;
     __total_routes := __total_routes v;
     __index := __index v;
     __cb := __cb v;
     route_callback_calls := route_callback_calls v;
     process_finished_calls := x |}.

Section RouteTableReader.
Context {E : Externals}.

#[local] Abbreviation RouteTableReader := (ZDOCommand RouteTableReader_vars).

Definition DEFAULT_TIMEOUT : Z := 20.
Definition RouteTableReader__CLUSTER_ID : Z := 0x0032.
Definition RouteTableReader__RECEIVE_CLUSTER_ID : Z := 0x8032.
Definition __ROUTE_BYTES_LEN : Z := 5.
Definition __ST_FIELD_OFFSET : Z := 0.
Definition __ST_FIELD_LEN : Z := 3.
Definition __MEM_FIELD_OFFSET : Z := 3.
Definition __M2O_FIELD_OFFSET : Z := 4.
Definition __RR_FIELD_OFFSET : Z := 5.

Definition RouteTableReader__init__ (xbee : option XBee)
    (configure_ao : bool) (timeout : Z) (radio : LocalXBee)
  : M ClassAttributes RouteTableReader :=
  __init__ class_RouteTableReader xbee RouteTableReader__CLUSTER_ID
    RouteTableReader__RECEIVE_CLUSTER_ID configure_ao timeout
    {| __routes := None;
       __total_routes := 0;
       __index := 0;
       __cb := false;
       route_callback_calls := [];
       process_finished_calls := [] |} radio.

Definition RouteTableReader_init_variables : M RouteTableReader unit :=
  modify (fun s => set_vars (set_routes (Some []) (vars s)) s) ;;
  modify (fun s => set_vars (set_total_routes 0 (vars s)) s) ;;
  modify (fun s => set_vars (set_index 0 (vars s)) s).

Definition RouteTableReader_get_zdo_command_data
  : M RouteTableReader (list Z) :=
  s <- get ;;
  lift (bytearray [_current_transaction_id s; __index (vars s)]).

#[export] Instance RouteTableReader_request
  : ZDORequest RouteTableReader_vars := {
  _is_broadcast := fun _ => false;
  _get_zdo_command_data := RouteTableReader_get_zdo_command_data
}.

(** A [Route] object is always true, so the [if r:] of the caller always
    takes the route. *)
Definition __parse_route (data : list Z) : result Route :=
  (d1 <- getitem data 1 ;;
   d0 <- getitem data 0 ;;
   let destination := XBee16BitAddress.from_bytes d1 d0 in
   d4 <- getitem data 4 ;;
   d3 <- getitem data 3 ;;
   let next_hop := XBee16BitAddress.from_bytes d4 d3 in
   d2 <- getitem data 2 ;;
   let status :=
     RouteStatus.get
       (utils.get_int_from_byte d2 __ST_FIELD_OFFSET __ST_FIELD_LEN) in
   d2 <- getitem data 2 ;;
   let is_low_memory := utils.is_bit_enabled d2 __MEM_FIELD_OFFSET in
   d2 <- getitem data 2 ;;
   let is_many_to_one := utils.is_bit_enabled d2 __M2O_FIELD_OFFSET in
   d2 <- getitem data 2 ;;
   let is_route_record_required :=
     utils.is_bit_enabled d2 __RR_FIELD_OFFSET in
   Ok {| destination := destination;
         next_hop := next_hop;
         status := status;
         is_low_memory := is_low_memory;
         is_many_to_one := is_many_to_one;
         is_route_record_required := is_route_record_required |})%result.

Definition __get_next_routes : M RouteTableReader unit :=
  try_except_XBeeException
    (p <- _generate_zdo_packet ;;
     send_packet p)
    (fun e => modify (set_error
                (Some (String.append "Error sending ZDO command: " e)))).

(** [self.__routes.append(r)] and, with a callback, [self.__cb(xbee, r)]. *)
Definition take_route (r : Route) : M RouteTableReader unit :=
  s <- get ;;
  match __routes (vars s) with
  | None => raise AttributeError
  | Some routes =>
      modify (fun s => set_vars (set_routes (Some (routes ++ [r])) (vars s)) s) ;;
      if __cb (vars s)
      then modify (fun s => set_vars
                     (set_route_callback_calls
                        (route_callback_calls (vars s) ++ [r]) (vars s)) s)
      else ret tt
  end.

(** The [while] loop of [_parse_data]. Each turn moves [byte_index] five
    bytes closer to [n_route_data_bytes], so [fuel] turns are enough as
    soon as [fuel] is at least their distance (lemma
    [parse_routes_while_fuel]). *)
Fixpoint parse_routes_while (fuel : nat) (data : list Z)
    (routes_starting_index n_route_data_bytes byte_index : Z)
  : M RouteTableReader unit :=
  match fuel with
  | O => ret tt
  | S fuel =>
    if byte_index + 1 <? n_route_data_bytes then
      if byte_index + __ROUTE_BYTES_LEN
         >? n_route_data_bytes + routes_starting_index
      then ret tt
      else
        r <- lift (__parse_route
                     (slice data byte_index (byte_index + __ROUTE_BYTES_LEN))) ;;
        take_route r ;;
        let byte_index := byte_index + __ROUTE_BYTES_LEN in
        modify (fun s => set_vars (set_index (__index (vars s) + 1) (vars s)) s) ;;
        parse_routes_while fuel data routes_starting_index n_route_data_bytes
          byte_index
    else ret tt
  end.

Definition RouteTableReader_parse_data (data : list Z)
  : M RouteTableReader bool :=
  d0 <- lift (getitem data 0) ;;
  modify (fun s => set_vars (set_total_routes d0 (vars s)) s) ;;
  n_items <- lift (getitem data 2) ;;
  if n_items =? 0 then
    __get_next_routes ;;
    ret true
  else
    let routes_starting_index := 3 in
    let byte_index := routes_starting_index in
    let n_route_data_bytes := len data - 3 in
    parse_routes_while (List.length data) data routes_starting_index
      n_route_data_bytes byte_index ;;
    s <- get ;;
    if __index (vars s) <? __total_routes (vars s) then
      __get_next_routes ;;
      ret false
    else ret true.

Definition RouteTableReader_notify_process_finished (zdo_callback : bool)
  : M RouteTableReader unit :=
  if zdo_callback
  then modify (fun s => set_vars
                 (set_process_finished_calls
                    (process_finished_calls (vars s)
                       ++ [(__routes (vars s), _error s)]) (vars s)) s)
  else ret tt.

#[export] Instance RouteTableReader_variant
  : ZDOVariant RouteTableReader_vars := {
  _init_variables := RouteTableReader_init_variables;
  _parse_data := RouteTableReader_parse_data;
  _perform_finish_actions := ret tt;
  _notify_process_finished := RouteTableReader_notify_process_finished
}.

(** Without a route callback the process runs in the caller and the routes
    read are returned; with one it runs in a thread of its own and the
    caller gets [self.__routes] as it is when the thread has just been
    started (here: before the thread does anything). *)
Definition get_route_table (route_callback process_finished_callback : bool)
    (env : Environment) : M RouteTableReader (option (list Route)) :=
  modify (fun s => set_vars (set_cb route_callback (vars s)) s) ;;
  s <- get ;;
  if negb (__cb (vars s)) then
    _start_process true process_finished_callback env ;;
    gets (fun s => __routes (vars s))
  else
    _start_process false process_finished_callback env ;;
    ret (__routes (vars s)).

End RouteTableReader.

(* ===================================================================== *)
(** ** Concrete inputs                                                   *)
(* ===================================================================== *)

(** One choice of what the rest of the library fixes, to run the
    definitions on concrete inputs: a role is its identifier. *)
Definition sample_externals : Externals :=
  {| Role := Z;
     Role_get := fun identifier => identifier;
     Role_UNKNOWN := 3;
     X64_BROADCAST_ADDRESS := 0xFFFF;
     X64_UNKNOWN_ADDRESS := 0xFFFFFFFFFFFFFFFF;
     X16_BROADCAST_ADDRESS := XBee16BitAddress.from_bytes 0xFF 0xFF;
     X16_UNKNOWN_ADDRESS := XBee16BitAddress.from_bytes 0xFF 0xFE;
     calculate_api_output_mode_value := fun _ => 1 |}.

(** A Zigbee node with 16-bit address 0x1234, and a local radio that has
    sent nothing and whose operations succeed. *)
Definition node_1234 : XBee :=
  {| is_remote := false;
     get_64bit_addr := 0x0013A20040000001;
     get_16bit_addr := XBee16BitAddress.from_bytes 0x12 0x34;
     get_protocol := ZIGBEE |}.

Definition idle_radio : LocalXBee :=
  {| sent_packets := [];
     packet_received_callbacks := 0;
     api_output_mode_value := [0];
     send_packet_errors := [];
     get_api_output_mode_errors := [];
     set_api_output_mode_errors := [] |}.

(** A command object as its constructor leaves it, with transaction
    identifier [tid]. *)
Definition fresh_command {V : Type} (xbee : XBee) (cluster receive_cluster tid : Z)
    (v : V) (radio : LocalXBee) : ZDOCommand V :=
  {| _xbee := xbee;
     __cluster_id := cluster;
     __receive_cluster_id := receive_cluster;
     __configure_ao := true;
     __timeout := 20;
     __saved_ao := None;
     _running := false;
     _error := None;
     __zdo_thread := false;
     _lock := false;
     _received_status := false;
     _received_answer := false;
     _data_parsed := false;
     _current_transaction_id := tid;
     vars := v;
     xb := radio;
     zdo_callback_calls := [] |}.

(** The node-descriptor scenario of the specification: transaction 7, the
    fifteen bytes that follow the status byte (0x19 is 0b00011001, 0x03 is
    0b00000011, 0x80 is 0b10000000). *)
Definition scenario_reader
  : ZDOCommand (@NodeDescriptorReader_vars sample_externals) :=
  fresh_command node_1234 0x0002 0x8002 7
    {| __node_descriptor := None; __role := None |} idle_radio.

Definition scenario_body : list Z :=
  [0x34; 0x12; 0x19; 0x03; 0x80; 0x02; 0x00; 0x50;
   0x00; 0x01; 0; 0; 0x00; 0x02; 0x01].

(** The first fourteen bytes of the scenario's body, and the body with
    another address in front. *)
Definition short_body : list Z := firstn 14 scenario_body.

Definition foreign_body : list Z := 0x35 :: tl scenario_body.

(** A body like the scenario's whose byte 3 is 0x40 (bit 6 only). *)
Definition band_body : list Z :=
  [0x34; 0x12; 0x01; 0x40; 0x8E; 0x1E; 0x10; 0x54;
   0x00; 0x01; 0; 0; 0x00; 0x01; 0x00].

(** Bits [lo], [lo+1], ..., [lo+n-1] of a byte, least significant first. *)
Definition bits_from (lo : Z) (n : nat) (b : Z) : list Z :=
  map (fun i => Z.land (Z.shiftr b (lo + Z.of_nat i)) 1) (seq 0 n).

(** A node-descriptor reader and a route-table reader constructed one
    after the other, and the transaction identifiers they get. *)
Definition two_readers : M ClassAttributes (Z * Z) :=
  nd <- NodeDescriptorReader__init__ (E := sample_externals)
          (Some node_1234) true 20 idle_radio ;;
  rt <- RouteTableReader__init__ (Some node_1234) true 20 idle_radio ;;
  ret (_current_transaction_id nd, _current_transaction_id rt).

(** The transaction identifiers of [n] commands of class [c] constructed
    one after the other. *)
Fixpoint successive_ids (c : ZDOClass) (xbee : XBee) (n : nat)
  : M ClassAttributes (list Z) :=
  match n with
  | O => ret []
  | S n =>
      command <- __init__ (V := unit) c (Some xbee) 0 0 true 0 tt idle_radio ;;
      ids <- successive_ids c xbee n ;;
      ret (_current_transaction_id command :: ids)
  end.

(** An environment in which nothing answers. *)
Definition silence : Environment :=
  {| answer := fun _ => []; patience := 0 |}.

(** A radio whose AO register is 0 and whose second write of the register
    times out. *)
Definition radio_failing_restore : LocalXBee :=
  {| sent_packets := [];
     packet_received_callbacks := 0;
     api_output_mode_value := [0];
     send_packet_errors := [];
     get_api_output_mode_errors := [];
     set_api_output_mode_errors := [None; Some "Timeout"] |}.

(** A reader that has timed out, with the register still to restore and a
    radio that no longer answers. *)
Definition timed_out_reader
  : ZDOCommand (@NodeDescriptorReader_vars sample_externals) :=
  {| _xbee := node_1234;
     __cluster_id := 0x0002;
     __receive_cluster_id := 0x8002;
     __configure_ao := true;
     __timeout := 20;
     __saved_ao := Some [0];
     _running := true;
     _error := Some "ZDO command not sent";
     __zdo_thread := false;
     _lock := false;
     _received_status := false;
     _received_answer := false;
     _data_parsed := false;
     _current_transaction_id := 7;
     vars := {| __node_descriptor := None;
               __role := Some (@Role_UNKNOWN sample_externals) |};
     xb := {| sent_packets := [];
              packet_received_callbacks := 0;
              api_output_mode_value := [1];
              send_packet_errors := [];
              get_api_output_mode_errors := [];
              set_api_output_mode_errors := [Some "Timeout"] |};
     zdo_callback_calls := [] |}.

(** The reader of the scenario while its exchange runs, and an answer to
    it with status 0x84. *)
Definition running_reader
  : ZDOCommand (@NodeDescriptorReader_vars sample_externals) :=
  set_running true scenario_reader.

Definition refusal : ExplicitRXIndicatorPacket :=
  {| x64bit_source_addr := 0x0013A20040000001;
     x16bit_source_addr := XBee16BitAddress.from_bytes 0x12 0x34;
     rx_source_endpoint := 0;
     rx_dest_endpoint := 0;
     rx_cluster_id := 0x8002;
     rx_profile_id := 0;
     rx_rf_data := [7; 0x84] |}.

(** A route-table entry as the device holds it (five bytes), its bytes on
    the wire, and the route those bytes stand for. *)
Record RouteEntry : Type := {
  dst_lo : Z;
  dst_hi : Z;
  flags : Z;
  next_lo : Z;
  next_hi : Z
}.

Definition entry_bytes (e : RouteEntry) : list Z :=
  [dst_lo e; dst_hi e; flags e; next_lo e; next_hi e].

Definition route_of_entry (e : RouteEntry) : Route :=
  {| destination := XBee16BitAddress.from_bytes (dst_hi e) (dst_lo e);
     next_hop := XBee16BitAddress.from_bytes (next_hi e) (next_lo e);
     status := RouteStatus.get (utils.get_int_from_byte (flags e) 0 3);
     is_low_memory := utils.is_bit_enabled (flags e) 3;
     is_many_to_one := utils.is_bit_enabled (flags e) 4;
     is_route_record_required := utils.is_bit_enabled (flags e) 5 |}.

(** The payload (after the status byte) of the answer of a device that
    holds [table] and puts at most [per_response] entries in an answer, to
    a request for the entries from [start] on: the total, the start, the
    number of entries carried, and these entries. *)
Definition route_table_response (table : list RouteEntry) (per_response : nat)
    (start : Z) : list Z :=
  let entries := firstn per_response (skipn (Z.to_nat start) table) in
  [len table; start; len entries] ++ List.concat (map entry_bytes entries).

(** What arrives for a request sent to such a device: the transmit status
    of the request, then the answer, from the node the request was sent to
    and with the request's transaction identifier. *)
Definition route_table_device (table : list RouteEntry) (per_response : nat)
    (p : ExplicitAddressingPacket) : list XBeeAPIPacket :=
  match rf_data p with
  | [tid; start] =>
      [TRANSMIT_STATUS (frame_id p) SUCCESS;
       EXPLICIT_RX_INDICATOR
         {| x64bit_source_addr := x64bit_dest_addr p;
            x16bit_source_addr := x16bit_dest_addr p;
            rx_source_endpoint := 0x00;
            rx_dest_endpoint := 0x00;
            rx_cluster_id := 0x8032;
            rx_profile_id := 0x0000;
            rx_rf_data :=
              tid :: 0x00 :: route_table_response table per_response start |}]
  | _ => []
  end.

Definition route_table_environment (table : list RouteEntry)
    (per_response : nat) (patience : nat) : Environment :=
  {| answer := route_table_device table per_response;
     patience := patience |}.

(** The number of requests that fetch [total] entries [per_response] at a
    time. *)
Definition requests_needed (total per_response : Z) : Z :=
  (total + per_response - 1) / per_response.

(** A route-table reader as its constructor leaves it, and the two entries
    of the specification's scenario followed by one with status code 5. *)
Definition table_reader : ZDOCommand RouteTableReader_vars :=
  fresh_command node_1234 0x0032 0x8032 9
    {| __routes := None;
       __total_routes := 0;
       __index := 0;
       __cb := false;
       route_callback_calls := [];
       process_finished_calls := [] |} idle_radio.

Definition sample_table : list RouteEntry :=
  [ {| dst_lo := 0x01; dst_hi := 0x00; flags := 0x00;
       next_lo := 0x00; next_hi := 0x00 |};
    {| dst_lo := 0x02; dst_hi := 0x00; flags := 0x09;
       next_lo := 0x01; next_hi := 0x00 |};
    {| dst_lo := 0x03; dst_hi := 0x00; flags := 0x05;
       next_lo := 0x02; next_hi := 0x00 |} ].

(** The route-table reader while its exchange runs, its transmit status
    already received, and an answer to it that reports two entries and
    carries none. *)
Definition acknowledged_table_reader : ZDOCommand RouteTableReader_vars :=
  set_received_status true
    (set_running true
       (set_vars
          {| __routes := Some [];
             __total_routes := 0;
             __index := 0;
             __cb := false;
             route_callback_calls := [];
             process_finished_calls := [] |} table_reader)).

Definition empty_answer : ExplicitRXIndicatorPacket :=
  {| x64bit_source_addr := 0x0013A20040000001;
     x16bit_source_addr := XBee16BitAddress.from_bytes 0x12 0x34;
     rx_source_endpoint := 0;
     rx_dest_endpoint := 0;
     rx_cluster_id := 0x8032;
     rx_profile_id := 0;
     rx_rf_data := [9; 0x00; 2; 0; 0] |}.

(** The route-table scenario of the specification: the payload, after the
    status byte, of an answer that reports two entries and carries both
    (0x09 is 0b00001001). *)
Definition scenario_table_payload : list Z :=
  [2; 0; 2; 0x01; 0x00; 0x00; 0x00; 0x00; 0x02; 0x00; 0x09; 0x01; 0x00].

(* ===================================================================== *)
(** ** Notions the statements use                                        *)
(* ===================================================================== *)

Section Notions.
Context {E : Externals}.

(** The descriptor the decoder builds from the bytes it reads. *)
Definition descriptor_of (d2 d3 d4 d5 d6 d7 d8 d9 d12 d13 d14 : Z)
  : NodeDescriptor :=
  {| role := Role_get (utils.get_int_from_byte d2 0 3);
     complex_desc_supported := utils.is_bit_enabled d2 3;
     user_desc_supported := utils.is_bit_enabled d2 4;
     freq_band := slice_from (__to_bits d3) (-5);
     mac_capabilities := __to_bits d4;
     manufacturer_code := utils.bytes_to_int [d6; d5];
     max_buffer_size := d7;
     max_in_transfer_size := utils.bytes_to_int [d9; d8];
     max_out_transfer_size := utils.bytes_to_int [d13; d12];
     desc_capabilities := __to_bits d14 |}.

(** The reader once it holds descriptor [d]. *)
Definition with_descriptor (d : NodeDescriptor) (s : ZDOCommand NodeDescriptorReader_vars) : ZDOCommand NodeDescriptorReader_vars :=
  set_vars {| __node_descriptor := Some d; __role := __role (vars s) |} s.

(** The state [stop] leaves. *)
Definition stopped {V : Type} (s : ZDOCommand V) : ZDOCommand V :=
  let s := if negb (_lock s) then set_lock true s else s in
  if __zdo_thread s && _running s then set_zdo_thread false s else s.

(** A radio all of whose operations succeed and whose AO register holds a
    value. *)
Definition healthy (d : LocalXBee) : Prop :=
  send_packet_errors d = []
  /\ get_api_output_mode_errors d = []
  /\ set_api_output_mode_errors d = []
  /\ api_output_mode_value d <> [].

(** A command with everything the preparing and the restoring of the
    radio may touch blanked out: two commands that agree on it differ at
    most in the saved AO value, the AO register and the outcomes left for
    reading and writing it. *)
Definition xb_apart_from_ao (d : LocalXBee) : LocalXBee :=
  {| sent_packets := sent_packets d;
     packet_received_callbacks := packet_received_callbacks d;
     api_output_mode_value := [];
     send_packet_errors := send_packet_errors d;
     get_api_output_mode_errors := [];
     set_api_output_mode_errors := [] |}.

Definition apart_from_ao {V : Type} (s : ZDOCommand V) : ZDOCommand V :=
  set_saved_ao None (set_xb (xb_apart_from_ao (xb s)) s).

(** The register can be written back: if the command configures AO, the
    value it saved (if any) is not empty and the next write succeeds. *)
Definition restorable {V : Type} (s : ZDOCommand V) : Prop :=
  __configure_ao s = true ->
  __saved_ao s <> Some []
  /\ next_outcome (set_api_output_mode_errors (xb s)) = None.

(** What [_send_zdo] does before its [try] block, and what the block does
    up to and including the wait. *)
Definition before_the_try {V : Type} `{ZDOVariant V} : M (ZDOCommand V) unit :=
  modify (set_running true) ;;
  modify (set_error None) ;;
  modify (set_received_status false) ;;
  modify (set_received_answer false) ;;
  modify (set_data_parsed false) ;;
  modify (set_lock false) ;;
  add_packet_received_callback ;;
  _init_variables.

Definition up_to_the_wait {E : Externals} {V : Type} `{ZDOVariant V}
    (env : Environment) : M (ZDOCommand V) unit :=
  __prepare_device ;;
  already_sent <- gets (fun s => List.length (sent_packets (xb s))) ;;
  p <- _generate_zdo_packet ;;
  send_packet p ;;
  _lock_wait (answer env) (patience env) already_sent [].

(** What [_send_zdo] does once its wait has returned: the rest of the
    [try] block under its [except] clause, then the [finally] block. *)
Definition after_the_wait {V : Type} `{ZDOVariant V} (zdo_callback : bool)
  : M (ZDOCommand V) unit :=
  try_finally
    (try_except_XBeeException _send_zdo_after_wait
       (fun e => modify (set_error
                   (Some (String.append "Error sending ZDO command: " e)))))
    (_send_zdo_finally zdo_callback).

(** What the constructor does for arguments it accepts. *)
Definition next_id (g : Z) : Z := if g + 1 =? 0xFF then 1 else g + 1.

Definition supported (xbee : XBee) : bool :=
  match get_protocol xbee with
  | OTHER_PROTOCOL _ => false
  | _ => true
  end.

(** The identifier of the [k]-th command (from 0) of a class whose counter
    stands at [g]. *)
Definition nth_id (g : Z) (k : nat) : Z := 1 + (g - 1 + Z.of_nat k) mod 254.

(** The reader once the routes [rs] have been read in addition to
    [routes]. *)
Definition with_routes (routes rs : list Route)
    (s : ZDOCommand RouteTableReader_vars) : ZDOCommand RouteTableReader_vars :=
  set_vars
    {| __routes := Some (routes ++ rs);
       __total_routes := __total_routes (vars s);
       __index := __index (vars s) + len rs;
       __cb := __cb (vars s);
       route_callback_calls :=
         if __cb (vars s) then route_callback_calls (vars s) ++ rs
         else route_callback_calls (vars s);
       process_finished_calls := process_finished_calls (vars s) |} s.

(** The request of a route-table reader for the entries from [index] on,
    and the reader once its radio has sent the request for its current
    index. *)
Definition request_packet (s : ZDOCommand RouteTableReader_vars) (index : Z)
  : ExplicitAddressingPacket :=
  {| frame_id := _current_transaction_id s;
     x64bit_dest_addr := get_64bit_addr (_xbee s);
     x16bit_dest_addr := get_16bit_addr (_xbee s);
     source_endpoint := _SOURCE_ENDPOINT;
     dest_endpoint := _DESTINATION_ENDPOINT;
     cluster_id := __cluster_id s;
     profile_id := _PROFILE_ID;
     broadcast_radius := 0;
     transmit_options := TransmitOptions_NONE;
     rf_data := [_current_transaction_id s; index] |}.

Definition sent_request (s : ZDOCommand RouteTableReader_vars)
  : ZDOCommand RouteTableReader_vars :=
  set_xb (xb_send (request_packet s (__index (vars s)))
            (xb_next_send (xb s))) s.

(** The reader once the device said it holds [total] entries. *)
Definition with_total (total : Z) (s : ZDOCommand RouteTableReader_vars)
  : ZDOCommand RouteTableReader_vars :=
  set_vars (set_total_routes total (vars s)) s.

(** The reader once the callback has handled an answer with status 0 that
    reports [total] entries and carries the entries [es], the reader
    holding [routes] before: the entries are taken, and then either the
    next request is sent, or the reading is complete and the command stops
    if the transmit status has arrived. *)
Definition after_answer (total : Z) (es : list RouteEntry)
    (routes : list Route) (s : ZDOCommand RouteTableReader_vars)
  : ZDOCommand RouteTableReader_vars :=
  let s1 := with_routes routes (map route_of_entry es)
              (with_total total (set_received_answer true s)) in
  if __index (vars s) + len es <? total
  then set_data_parsed false (sent_request s1)
  else if _received_status s then stopped (set_data_parsed true s1)
       else set_data_parsed true s1.

(** The reader once the callback has handled an answer with status 0 that
    says it carries no entry. *)
Definition after_empty_answer (total : Z)
    (s : ZDOCommand RouteTableReader_vars) : ZDOCommand RouteTableReader_vars :=
  let s1 := sent_request (with_total total (set_received_answer true s)) in
  if _received_status s then stopped (set_data_parsed true s1)
  else set_data_parsed true s1.

(** What an exchange does not change once it waits: the target, the
    clusters, the transaction identifier, and what the restoring of the
    register depends on. *)
Definition setup (s : ZDOCommand RouteTableReader_vars) :=
  (_xbee s, __cluster_id s, __receive_cluster_id s, _current_transaction_id s,
   __configure_ao s, __saved_ao s, set_api_output_mode_errors (xb s),
   __cb (vars s)).

(** A reader in the middle of reading [table]: it waits, has read the first
    [i] entries, and its request for the entries from [i] on is the packet
    number [handled] of its radio, the last one sent. *)
Record paging (table : list RouteEntry) (sw : ZDOCommand RouteTableReader_vars)
    (i handled : nat) (s : ZDOCommand RouteTableReader_vars) : Prop := {
  pg_setup : setup s = setup sw;
  pg_running : _running s = true;
  pg_lock : _lock s = false;
  pg_parsed : _data_parsed s = false;
  pg_error : _error s = None;
  pg_routes : __routes (vars s) = Some (map route_of_entry (firstn i table));
  pg_index : __index (vars s) = Z.of_nat i;
  pg_request : nth_error (sent_packets (xb s)) handled
               = Some (request_packet sw (Z.of_nat i));
  pg_sent : List.length (sent_packets (xb s)) = S handled;
  pg_send_ok : send_packet_errors (xb s) = []
}.

(** A reader that has read all of [table] and has stopped, its radio having
    sent [sent_total] packets. *)
Record completed (table : list RouteEntry)
    (sw : ZDOCommand RouteTableReader_vars) (sent_total : Z)
    (s : ZDOCommand RouteTableReader_vars) : Prop := {
  cp_setup : setup s = setup sw;
  cp_running : _running s = true;
  cp_lock : _lock s = true;
  cp_status : _received_status s = true;
  cp_answer : _received_answer s = true;
  cp_error : _error s = None;
  cp_routes : __routes (vars s) = Some (map route_of_entry table);
  cp_index : __index (vars s) = len table;
  cp_sent : len (sent_packets (xb s)) = sent_total
}.

End Notions.

(* ===================================================================== *)
(** ** Properties of the node-descriptor reader                          *)
(* ===================================================================== *)

Section NodeDescriptorProperties.
Context {E : Externals}.

#[local] Abbreviation NDReader := (ZDOCommand NodeDescriptorReader_vars).

#[local] Arguments utils.is_bit_enabled : simpl never.
#[local] Arguments utils.get_int_from_byte : simpl never.
#[local] Arguments utils.bytes_to_int : simpl never.
#[local] Arguments __to_bits : simpl never.
#[local] Arguments slice_from : simpl never.
#[local] Arguments XBee16BitAddress.eqb : simpl never.
#[local] Arguments XBee16BitAddress.from_bytes : simpl never.

Lemma XBee16BitAddress_eqb_refl (a : XBee16BitAddress) :
  XBee16BitAddress.eqb a a = true.
Proof.
  unfold XBee16BitAddress.eqb. now rewrite !Z.eqb_refl.
Qed.

Lemma XBee16BitAddress_eqb_eq (a b : XBee16BitAddress) :
  XBee16BitAddress.eqb a b = true <-> a = b.
Proof.
  split.
  - unfold XBee16BitAddress.eqb. intros H.
    apply andb_true_iff in H as [Hh Hl].
    apply Z.eqb_eq in Hh, Hl. destruct a, b; simpl in *; congruence.
  - intros ->. apply XBee16BitAddress_eqb_refl.
Qed.

Lemma parse_data_fifteen (s : NDReader)
    (d0 d1 d2 d3 d4 d5 d6 d7 d8 d9 d10 d11 d12 d13 d14 : Z) (rest : list Z) :
  XBee16BitAddress.from_bytes d1 d0 = get_16bit_addr (_xbee s) ->
  NodeDescriptorReader_parse_data
    (d0 :: d1 :: d2 :: d3 :: d4 :: d5 :: d6 :: d7 :: d8 :: d9 :: d10 :: d11
        :: d12 :: d13 :: d14 :: rest) s
  = (Ok true,
     with_descriptor (descriptor_of d2 d3 d4 d5 d6 d7 d8 d9 d12 d13 d14) s).
Proof.
  intros Haddr.
  unfold NodeDescriptorReader_parse_data, bind, lift, get, modify, ret.
  simpl. rewrite Haddr, XBee16BitAddress_eqb_refl. reflexivity.
Qed.

Lemma bits_of_slice (b : Z) :
  slice_from (__to_bits b) (-5) = bits_from 3 5 b.
Proof. reflexivity. Qed.

Lemma parse_data_long (s : NDReader) (data : list Z) (d0 d1 : Z) :
  nth_error data 0 = Some d0 ->
  nth_error data 1 = Some d1 ->
  XBee16BitAddress.from_bytes d1 d0 = get_16bit_addr (_xbee s) ->
  (15 <= List.length data)%nat ->
  NodeDescriptorReader_parse_data data s
  = (Ok true,
     with_descriptor
       (descriptor_of (nth 2 data 0) (nth 3 data 0) (nth 4 data 0)
          (nth 5 data 0) (nth 6 data 0) (nth 7 data 0) (nth 8 data 0)
          (nth 9 data 0) (nth 12 data 0) (nth 13 data 0) (nth 14 data 0)) s).
Proof.
  intros H0 H1 Haddr Hlen.
  do 15 (destruct data as [|? data]; [simpl in Hlen; lia|]).
  simpl in H0, H1. injection H0 as ->. injection H1 as ->.
  now apply parse_data_fifteen.
Qed.

(** C1 (as amended). For a target whose 16-bit address is 0x1234, the
    scenario's fifteen bytes decode to role 1, complex descriptor supported,
    user descriptor supported (bit 4 of 0x19 is set), no frequency-band bit
    (bits 3 to 7 of 0x03), MAC capabilities with bit 7 only, manufacturer
    code 2, buffer size 80, transfer sizes 256 and 512, and
    descriptor-capabilities bit 0 set. *)
Theorem scenario_descriptor (s : NDReader) :
  get_16bit_addr (_xbee s) = XBee16BitAddress.from_bytes 0x12 0x34 ->
  NodeDescriptorReader_parse_data scenario_body s
  = (Ok true,
     with_descriptor
       {| role := Role_get 1;
          complex_desc_supported := true;
          user_desc_supported := true;
          freq_band := [0; 0; 0; 0; 0];
          mac_capabilities := [0; 0; 0; 0; 0; 0; 0; 1];
          manufacturer_code := 2;
          max_buffer_size := 80;
          max_in_transfer_size := 256;
          max_out_transfer_size := 512;
          desc_capabilities := [1; 0; 0; 0; 0; 0; 0; 0] |} s).
Proof.
  intros Haddr. unfold scenario_body.
  rewrite parse_data_fifteen by (now rewrite Haddr).
  reflexivity.
Qed.

(** C2 (as amended). For every response body of at least fifteen bytes whose
    embedded address is the target's, the frequency band of the descriptor
    is bits 3 to 7 of byte 3 of the body, bit 3 first. *)
Theorem freq_band_is_bits_3_to_7 (s : NDReader) (data : list Z) (d0 d1 : Z) :
  nth_error data 0 = Some d0 ->
  nth_error data 1 = Some d1 ->
  XBee16BitAddress.from_bytes d1 d0 = get_16bit_addr (_xbee s) ->
  (15 <= List.length data)%nat ->
  exists d,
    NodeDescriptorReader_parse_data data s = (Ok true, with_descriptor d s)
    /\ freq_band d = bits_from 3 5 (nth 3 data 0).
Proof.
  intros H0 H1 Haddr Hlen.
  eexists. split.
  - now apply (parse_data_long s data d0 d1).
  - reflexivity.
Qed.

(** C10. The decoder reads the body at offsets 0 to 14. When the embedded
    address is the target's: on a body of at least fifteen bytes every one
    of these reads is in bounds and a descriptor is produced; on a shorter
    body a read is out of bounds and the decoder raises [IndexError],
    leaving the reader without a descriptor. *)
Theorem node_descriptor_offsets (s : NDReader) (data : list Z) (d0 d1 : Z) :
  nth_error data 0 = Some d0 ->
  nth_error data 1 = Some d1 ->
  XBee16BitAddress.from_bytes d1 d0 = get_16bit_addr (_xbee s) ->
  ((15 <= List.length data)%nat ->
     (forall i, 0 <= i <= 14 -> exists b, getitem data i = Ok b)
     /\ exists d,
          NodeDescriptorReader_parse_data data s
          = (Ok true, with_descriptor d s))
  /\ ((List.length data < 15)%nat ->
      NodeDescriptorReader_parse_data data s = (Raise IndexError, s)).
Proof.
  intros H0 H1 Haddr. split.
  - intros Hlen. split.
    + intros i Hi. unfold getitem.
      destruct (i <? 0) eqn:Hneg; [apply Z.ltb_lt in Hneg; lia|].
      rewrite Hneg.
      destruct (nth_error data (Z.to_nat i)) as [b|] eqn:Hnth; [now exists b|].
      apply nth_error_None in Hnth. lia.
    + eexists. now apply (parse_data_long s data d0 d1).
  - intros Hlen.
    destruct data as [|x0 data]; [discriminate H0|].
    destruct data as [|x1 data]; [discriminate H1|].
    simpl in H0, H1. injection H0 as ->. injection H1 as ->.
    unfold NodeDescriptorReader_parse_data, bind, lift, get, modify, ret.
    simpl. rewrite Haddr, XBee16BitAddress_eqb_refl. simpl.
    do 13 (destruct data as [|? data]; [reflexivity|]).
    simpl in Hlen. lia.
Qed.

(** A body whose embedded address is not the target's: the decoder returns
    [False] and leaves the reader as it is, without descriptor and without
    error. *)
Lemma foreign_address_is_ignored (s : NDReader) (data : list Z) (d0 d1 : Z) :
  nth_error data 0 = Some d0 ->
  nth_error data 1 = Some d1 ->
  XBee16BitAddress.from_bytes d1 d0 <> get_16bit_addr (_xbee s) ->
  NodeDescriptorReader_parse_data data s = (Ok false, s).
Proof.
  intros H0 H1 Haddr.
  destruct data as [|x0 data]; [discriminate H0|].
  destruct data as [|x1 data]; [discriminate H1|].
  simpl in H0, H1. injection H0 as ->. injection H1 as ->.
  unfold NodeDescriptorReader_parse_data, bind, lift, get, ret. simpl.
  destruct (XBee16BitAddress.eqb (XBee16BitAddress.from_bytes d1 d0)
              (get_16bit_addr (_xbee s))) eqn:Heq; [|reflexivity].
  apply XBee16BitAddress_eqb_eq in Heq. contradiction.
Qed.

End NodeDescriptorProperties.

Lemma scenario_descriptor_witness :
  get_16bit_addr (_xbee scenario_reader) = XBee16BitAddress.from_bytes 0x12 0x34
  /\ @NodeDescriptorReader_parse_data sample_externals scenario_body
       scenario_reader
     = (Ok true,
        with_descriptor
          {| role := @Role_get sample_externals 1;
             complex_desc_supported := true;
             user_desc_supported := true;
             freq_band := [0; 0; 0; 0; 0];
             mac_capabilities := [0; 0; 0; 0; 0; 0; 0; 1];
             manufacturer_code := 2;
             max_buffer_size := 80;
             max_in_transfer_size := 256;
             max_out_transfer_size := 512;
             desc_capabilities := [1; 0; 0; 0; 0; 0; 0; 0] |} scenario_reader).
Proof.
  split; [reflexivity|].
  apply (@scenario_descriptor sample_externals scenario_reader). reflexivity.
Defined.

(** C1 as stated does not hold: the scenario does not decode to a
    descriptor without user-descriptor support and with frequency-band bits
    00011 (in either bit order). *)
Lemma scenario_descriptor_not_as_stated :
  ~ exists d,
      __node_descriptor
        (vars (snd (@NodeDescriptorReader_parse_data sample_externals
                      scenario_body scenario_reader))) = Some d
      /\ role d = @Role_get sample_externals 1
      /\ complex_desc_supported d = true
      /\ user_desc_supported d = false
      /\ (freq_band d = [1; 1; 0; 0; 0] \/ freq_band d = [0; 0; 0; 1; 1])
      /\ manufacturer_code d = 2
      /\ max_buffer_size d = 80
      /\ max_in_transfer_size d = 256
      /\ max_out_transfer_size d = 512
      /\ nth_error (desc_capabilities d) 0 = Some 1.
Proof.
  intros [d [Hd [_ [_ [Huser _]]]]].
  vm_compute in Hd. injection Hd as <-. discriminate Huser.
Qed.

Lemma freq_band_is_bits_3_to_7_witness :
  nth_error band_body 0 = Some 0x34
  /\ nth_error band_body 1 = Some 0x12
  /\ XBee16BitAddress.from_bytes 0x12 0x34
     = get_16bit_addr (_xbee scenario_reader)
  /\ (15 <= List.length band_body)%nat
  /\ exists d,
       @NodeDescriptorReader_parse_data sample_externals band_body
         scenario_reader = (Ok true, with_descriptor d scenario_reader)
       /\ freq_band d = bits_from 3 5 (nth 3 band_body 0).
Proof.
  repeat (split; [first [reflexivity | simpl; lia]|]).
  apply (@freq_band_is_bits_3_to_7 sample_externals scenario_reader band_body
           0x34 0x12); first [reflexivity | simpl; lia].
Defined.

(** C2 as stated does not hold: on a fifteen-byte body with the target's
    address and byte 3 equal to 0x40, the frequency band is not the low
    five bits of byte 3 (they are all zero; the band has bit 3 set). *)
Lemma freq_band_is_not_low_five_bits :
  List.length band_body = 15%nat
  /\ XBee16BitAddress.from_bytes (nth 1 band_body 0) (nth 0 band_body 0)
     = get_16bit_addr (_xbee scenario_reader)
  /\ exists d,
       @NodeDescriptorReader_parse_data sample_externals band_body
         scenario_reader = (Ok true, with_descriptor d scenario_reader)
       /\ freq_band d = [0; 0; 0; 1; 0]
       /\ bits_from 0 5 (nth 3 band_body 0) = [0; 0; 0; 0; 0]
       /\ freq_band d <> bits_from 0 5 (nth 3 band_body 0).
Proof.
  split; [reflexivity|]. split; [reflexivity|].
  eexists. split.
  - apply (@parse_data_fifteen sample_externals). reflexivity.
  - split; [reflexivity|]. split; [reflexivity|]. discriminate.
Qed.

Lemma node_descriptor_offsets_witness :
  (nth_error scenario_body 0 = Some 0x34
   /\ nth_error scenario_body 1 = Some 0x12
   /\ XBee16BitAddress.from_bytes 0x12 0x34
      = get_16bit_addr (_xbee scenario_reader)
   /\ (15 <= List.length scenario_body)%nat
   /\ exists d,
        @NodeDescriptorReader_parse_data sample_externals scenario_body
          scenario_reader = (Ok true, with_descriptor d scenario_reader))
  /\ (nth_error short_body 0 = Some 0x34
      /\ nth_error short_body 1 = Some 0x12
      /\ (List.length short_body < 15)%nat
      /\ @NodeDescriptorReader_parse_data sample_externals short_body
           scenario_reader = (Raise IndexError, scenario_reader)).
Proof.
  split.
  - repeat (split; [first [reflexivity | simpl; lia]|]).
    apply (proj1 (@node_descriptor_offsets sample_externals scenario_reader
                    scenario_body 0x34 0x12 eq_refl eq_refl eq_refl)).
    simpl; lia.
  - repeat (split; [first [reflexivity | simpl; lia]|]).
    apply (proj2 (@node_descriptor_offsets sample_externals scenario_reader
                    short_body 0x34 0x12 eq_refl eq_refl eq_refl)).
    simpl; lia.
Defined.

Lemma foreign_address_is_ignored_witness :
  nth_error foreign_body 0 = Some 0x35
  /\ nth_error foreign_body 1 = Some 0x12
  /\ XBee16BitAddress.from_bytes 0x12 0x35
     <> get_16bit_addr (_xbee scenario_reader)
  /\ @NodeDescriptorReader_parse_data sample_externals foreign_body
       scenario_reader = (Ok false, scenario_reader).
Proof.
  split; [reflexivity|]. split; [reflexivity|]. split; [discriminate|].
  apply (@foreign_address_is_ignored sample_externals scenario_reader
           foreign_body 0x35 0x12); [reflexivity|reflexivity|discriminate].
Defined.

(* ===================================================================== *)
(** ** Properties of the command engine                                  *)
(* ===================================================================== *)

Section EngineProperties.
Context {E : Externals} {V : Type}.
Context {request : ZDORequest V} {variant : ZDOVariant V}.

#[local] Abbreviation Cmd := (ZDOCommand V).

Lemma stop_spec (s : Cmd) : stop s = (Ok tt, stopped s).
Proof.
  unfold stop, stopped, bind, get, modify, ret.
  destruct (_lock s); simpl;
    destruct (__zdo_thread s && _running s); reflexivity.
Qed.

Lemma stopped_lock (s : Cmd) : _lock (stopped s) = true.
Proof.
  unfold stopped. destruct (_lock s) eqn:Hl; simpl;
    destruct (__zdo_thread s && _running s); simpl; auto.
Qed.

Lemma stopped_frame (s : Cmd) :
  vars (stopped s) = vars s /\ xb (stopped s) = xb s
  /\ _error (stopped s) = _error s
  /\ _data_parsed (stopped s) = _data_parsed s
  /\ _received_answer (stopped s) = _received_answer s
  /\ _received_status (stopped s) = _received_status s
  /\ _running (stopped s) = _running s.
Proof.
  unfold stopped. destruct (_lock s); simpl;
    destruct (__zdo_thread s && _running s); simpl; auto 10.
Qed.

(** Once the event is set the wait is over, whatever is still to arrive. *)
Lemma lock_wait_over answer budget handled pending (s : Cmd) :
  _lock s = true ->
  _lock_wait answer budget handled pending s = (Ok tt, s).
Proof.
  intros Hl. destruct budget; simpl; [reflexivity|].
  unfold bind, get. now rewrite Hl.
Qed.

Lemma slice_from_2 {A} (a b : A) (l : list A) :
  slice_from (a :: b :: l) 2 = l.
Proof.
  unfold slice_from, clip. cbn [Z.ltb Z.compare].
  rewrite Z.min_l; [reflexivity|]. unfold len. cbn [List.length]. lia.
Qed.

Lemma address_matches (s : Cmd) (frame : ExplicitRXIndicatorPacket) :
  x64bit_source_addr frame = get_64bit_addr (_xbee s) ->
  address_mismatch s frame = false.
Proof.
  intros H. unfold address_mismatch, XBee64BitAddress.eqb.
  rewrite H, Z.eqb_refl. cbn [negb]. now rewrite andb_false_r.
Qed.

(** The callback on an answer that passes its filters with status 0: the
    payload after the status goes to [_parse_data], and the command stops
    when that says the reading is complete and the transmit status has
    arrived. *)
Lemma callback_answer (s : Cmd) (frame : ExplicitRXIndicatorPacket)
    (payload : list Z) :
  _running s = true ->
  address_mismatch s frame = false ->
  rx_profile_id frame = _PROFILE_ID ->
  rx_source_endpoint frame = _SOURCE_ENDPOINT ->
  rx_dest_endpoint frame = _DESTINATION_ENDPOINT ->
  rx_cluster_id frame = __receive_cluster_id s ->
  rx_rf_data frame = _current_transaction_id s :: __STATUS_SUCCESS :: payload ->
  _zdo_packet_callback (EXPLICIT_RX_INDICATOR frame) s
  = (parsed <- _parse_data payload ;;
     modify (set_data_parsed parsed) ;;
     s <- get ;;
     if _data_parsed s && _received_status s then stop else ret tt)
      (set_received_answer true s).
Proof.
  intros Hrun Haddr Hprof Hsrc Hdst Hcl Hdata.
  unfold _zdo_packet_callback. unfold bind at 1, get at 1.
  rewrite Hrun, Haddr, Hprof, Hsrc, Hdst, Hcl, Hdata.
  rewrite !Z.eqb_refl. cbn [negb orb].
  unfold bind at 1, lift at 1. cbn [getitem Z.ltb Z.compare Z.to_nat nth_error].
  rewrite Z.eqb_refl. cbn [negb].
  unfold bind at 1, modify at 1. unfold bind at 1, lift at 1.
  change (nth_error
            (_current_transaction_id s :: __STATUS_SUCCESS :: payload) _)
    with (Some __STATUS_SUCCESS).
  cbv iota beta. rewrite Z.eqb_refl. cbn [negb].
  now rewrite slice_from_2.
Qed.

(** The callback on the transmit status of the command's own packet, when
    the status is success. *)
Lemma callback_transmit_success (s : Cmd) :
  _running s = true ->
  _zdo_packet_callback
    (TRANSMIT_STATUS (_current_transaction_id s) SUCCESS) s
  = (s <- get ;; if _data_parsed s then stop else ret tt)
      (set_received_status true s).
Proof.
  intros Hrun. unfold _zdo_packet_callback. unfold bind at 1, get at 1.
  rewrite Hrun, Z.eqb_refl. reflexivity.
Qed.

Lemma lock_wait_deliver answer budget handled frame pending (s : Cmd) :
  _lock s = false ->
  _lock_wait answer (S budget) handled (frame :: pending) s
  = _lock_wait answer budget handled pending
      (snd (_zdo_packet_callback frame s)).
Proof.
  intros Hl. cbn [_lock_wait]. unfold bind at 1, get at 1. rewrite Hl.
  reflexivity.
Qed.

Lemma lock_wait_fetch answer budget handled p (s : Cmd) :
  _lock s = false ->
  nth_error (sent_packets (xb s)) handled = Some p ->
  _lock_wait answer (S budget) handled [] s
  = _lock_wait answer budget (S handled) (answer p) s.
Proof.
  intros Hl Hp. cbn [_lock_wait]. unfold bind at 1, get at 1.
  now rewrite Hl, Hp.
Qed.

(** With a healthy radio the preparing succeeds, touches nothing but the
    saved value and the register, and leaves a command whose register can
    be written back. *)
Lemma prepare_device_ok (s : Cmd) :
  healthy (xb s) ->
  exists s',
    __prepare_device s = (Ok tt, s')
    /\ apart_from_ao s' = apart_from_ao s
    /\ __configure_ao s' = __configure_ao s
    /\ restorable s'.
Proof.
  intros (Hsend & Hget & Hset & Hao).
  unfold __prepare_device. unfold bind at 1, get at 1.
  destruct (__configure_ao s) eqn:Hcfg; cbn [negb].
  - unfold try_except_XBeeException, get_api_output_mode_value.
    unfold bind, get, modify, ret, lift. rewrite Hget. cbn [next_outcome].
    destruct (api_output_mode_value (xb s)) as [|b ao] eqn:Hvalue;
      [contradiction|].
    change (getitem (b :: ao) 0) with (Ok b).
    cbv iota beta.
    destruct (utils.is_bit_enabled b 0).
    + eexists. split; [reflexivity|]. split; [reflexivity|].
      split; [exact Hcfg|]. intros _. split; [discriminate|].
      cbn. now rewrite Hset.
    + unfold set_api_output_mode_value, bind, get, modify.
      cbn [set_xb xb set_saved_ao xb_next_get_ao set_api_output_mode_errors].
      rewrite Hset. cbn [next_outcome].
      eexists. split; [reflexivity|]. split; [reflexivity|].
      split; [exact Hcfg|]. intros _. split; [discriminate|].
      cbn. now rewrite Hset.
  - exists s. split; [reflexivity|]. split; [reflexivity|].
    split; [exact Hcfg|]. intros H. cbn in H. congruence.
Qed.

(** When the register can be written back, the restoring succeeds and
    touches nothing but the register; the error stays what it was. *)
Lemma restore_device_ok (s : Cmd) :
  restorable s ->
  exists s',
    __restore_device s = (Ok tt, s') /\ apart_from_ao s' = apart_from_ao s.
Proof.
  intros Hres. unfold __restore_device. unfold bind at 1, get at 1.
  destruct (__configure_ao s) eqn:Hcfg.
  - destruct (Hres Hcfg) as [Hsaved Hset].
    destruct (__saved_ao s) as [[|v ao]|] eqn:Hs;
      [congruence| |exists s; split; reflexivity].
    unfold try_except_XBeeException, set_api_output_mode_value.
    unfold bind, get, modify, lift.
    change (getitem (v :: ao) 0) with (Ok v). cbv iota beta.
    rewrite Hset. eexists. split; reflexivity.
  - exists s. split; [|reflexivity]. now destruct (__saved_ao s).
Qed.

(** The wait, and so the exchange, depends on the environment only through
    the frames it answers with and the time it leaves. *)
Lemma lock_wait_same_answers answer1 answer2 :
  (forall p, answer1 p = answer2 p) ->
  forall budget handled pending (s : Cmd),
    _lock_wait answer1 budget handled pending s
    = _lock_wait answer2 budget handled pending s.
Proof.
  intros Hsame. induction budget as [|budget IH]; intros handled pending s;
    [reflexivity|].
  cbn [_lock_wait]. unfold bind at 1 3, get at 1 2.
  destruct (_lock s); [reflexivity|].
  destruct pending as [|frame pending].
  - destruct (nth_error (sent_packets (xb s)) handled) as [p|]; [|reflexivity].
    rewrite Hsame. apply IH.
  - unfold bind. destruct (deliver frame s) as [[[]|e] s']; [apply IH|].
    reflexivity.
Qed.

Lemma send_zdo_same_answers (zdo_callback : bool) (env1 env2 : Environment)
    (s : Cmd) :
  (forall p, answer env1 p = answer env2 p) ->
  patience env1 = patience env2 ->
  _send_zdo zdo_callback env1 s = _send_zdo zdo_callback env2 s.
Proof.
  intros Hsame Hpatience. unfold _send_zdo.
  do 6 (unfold bind at 1, modify at 1; symmetry;
        unfold bind at 1, modify at 1; symmetry).
  unfold bind at 1. symmetry. unfold bind at 1. symmetry.
  destruct (add_packet_received_callback _) as [[[]|e] s1]; [|reflexivity].
  unfold bind at 1. symmetry. unfold bind at 1. symmetry.
  destruct (_init_variables s1) as [[[]|e] s2]; [|reflexivity].
  unfold try_finally, try_except_XBeeException.
  match goal with
  | |- (let (_, _) := (let (_, _) := ?b1 in _) in _)
       = (let (_, _) := (let (_, _) := ?b2 in _) in _) =>
      assert (Hbody : b1 = b2); [|now rewrite Hbody]
  end.
  unfold bind at 1. symmetry. unfold bind at 1. symmetry.
  destruct (__prepare_device s2) as [[[]|e] s3]; [|reflexivity].
  unfold bind at 1. symmetry. unfold bind at 1. symmetry.
  destruct (gets _ s3) as [[n|e] s4]; [|reflexivity].
  unfold bind at 1. symmetry. unfold bind at 1. symmetry.
  destruct (_generate_zdo_packet s4) as [[p|e] s5]; [|reflexivity].
  unfold bind at 1. symmetry. unfold bind at 1. symmetry.
  destruct (send_packet p s5) as [[[]|e] s6]; [|reflexivity].
  unfold bind at 1. symmetry. unfold bind at 1. symmetry.
  now rewrite Hpatience, (lock_wait_same_answers _ _ Hsame).
Qed.

Lemma restore_device_keeps_packets (s : Cmd) :
  sent_packets (xb (snd (__restore_device s))) = sent_packets (xb s).
Proof.
  unfold __restore_device. unfold bind at 1, get at 1.
  destruct (__configure_ao s); [|now destruct (__saved_ao s)].
  destruct (__saved_ao s) as [ao|]; [|reflexivity].
  unfold try_except_XBeeException, set_api_output_mode_value.
  unfold bind, get, modify, lift, raise.
  destruct (getitem ao 0) as [v|[]]; try reflexivity.
  cbn [xb set_xb set_api_output_mode_errors xb_next_set_ao].
  destruct (next_outcome (set_api_output_mode_errors (xb s))); reflexivity.
Qed.

(** Once the wait has returned, a command whose subclass sends nothing in
    [_perform_finish_actions] and [_notify_process_finished] sends nothing
    more. *)
Lemma after_the_wait_keeps_packets (zdo_callback : bool) (s : Cmd) :
  (forall x, sent_packets (xb (snd (_perform_finish_actions x)))
             = sent_packets (xb x)) ->
  (forall x, sent_packets (xb (snd (_notify_process_finished zdo_callback x)))
             = sent_packets (xb x)) ->
  sent_packets (xb (snd (after_the_wait zdo_callback s)))
  = sent_packets (xb s).
Proof.
  intros Hfinish Hnotify.
  assert (Htry : forall x,
             sent_packets
               (xb (snd (try_except_XBeeException _send_zdo_after_wait
                           (fun e => modify
                              (set_error
                                 (Some (String.append
                                          "Error sending ZDO command: " e))))
                           x)))
             = sent_packets (xb x)).
  { intros x. unfold try_except_XBeeException, _send_zdo_after_wait.
    unfold bind at 1, get at 1.
    assert (Hbody : forall c : M Cmd unit,
               sent_packets (xb (snd (c x))) = sent_packets (xb x) ->
               sent_packets
                 (xb (snd (let (r, s') := c x in
                           match r with
                           | Ok a => (Ok a, s')
                           | Raise (XBeeException msg) =>
                               modify
                                 (set_error
                                    (Some (String.append
                                             "Error sending ZDO command: "
                                             msg))) s'
                           | Raise e => (Raise e, s')
                           end)))
               = sent_packets (xb x)).
    { intros c Hc. destruct (c x) as [[a|[]] s']; exact Hc. }
    destruct (_received_status x); cbn [negb].
    - destruct (_received_answer x); cbn [negb].
      + specialize (Hbody _perform_finish_actions (Hfinish x)).
        destruct (_perform_finish_actions x) as [[a|[]] s']; exact Hbody.
      + destruct (truthy_str (_error x)); reflexivity.
    - destruct (truthy_str (_error x)); reflexivity. }
  assert (Hfinally : forall x,
             sent_packets (xb (snd (_send_zdo_finally zdo_callback x)))
             = sent_packets (xb x)).
  { intros x. unfold _send_zdo_finally.
    unfold bind at 1, del_packet_received_callback at 1, modify at 1.
    unfold bind at 1.
    match goal with
    | |- context [__restore_device ?y] =>
        pose proof (restore_device_keeps_packets y) as Hrestore;
        destruct (__restore_device y) as [[[]|e] s1]
    end; [|exact Hrestore].
    unfold bind at 1. pose proof (Hnotify s1) as Hn.
    destruct (_notify_process_finished zdo_callback s1) as [[[]|e] s2].
    - unfold modify. cbn [snd xb set_running].
      cbn [snd] in Hn, Hrestore. now rewrite Hn, Hrestore.
    - cbn [snd] in Hn, Hrestore |- *. now rewrite Hn, Hrestore. }
  unfold after_the_wait, try_finally.
  specialize (Htry s).
  destruct (try_except_XBeeException _ _ s) as [r s1].
  specialize (Hfinally s1).
  destruct (_send_zdo_finally zdo_callback s1) as [[[]|e] s2];
    cbn [snd] in *; congruence.
Qed.

(** [_send_zdo] in three parts: when what precedes the [try] block and the
    block up to its wait return normally, the rest is [after_the_wait]. *)
Lemma send_zdo_in_parts (zdo_callback : bool) (env : Environment)
    (s s1 s2 : Cmd) :
  before_the_try s = (Ok tt, s1) ->
  up_to_the_wait env s1 = (Ok tt, s2) ->
  _send_zdo zdo_callback env s = after_the_wait zdo_callback s2.
Proof.
  unfold before_the_try, up_to_the_wait, _send_zdo, after_the_wait.
  intros Hbefore Hwait.
  do 6 (unfold bind at 1, modify at 1 in Hbefore;
        unfold bind at 1, modify at 1).
  unfold bind at 1 in Hbefore. unfold bind at 1.
  destruct (add_packet_received_callback _) as [[[]|e] x1];
    [|discriminate Hbefore].
  unfold bind at 1. rewrite Hbefore.
  unfold try_finally, try_except_XBeeException.
  unfold bind at 1 in Hwait. unfold bind at 1.
  destruct (__prepare_device s1) as [[[]|e] x2]; [|discriminate Hwait].
  unfold bind at 1 in Hwait. unfold bind at 1.
  destruct (gets _ x2) as [[n|e] x3]; [|discriminate Hwait].
  unfold bind at 1 in Hwait. unfold bind at 1.
  destruct (_generate_zdo_packet x3) as [[p|e] x4]; [|discriminate Hwait].
  unfold bind at 1 in Hwait. unfold bind at 1.
  destruct (send_packet p x4) as [[[]|e] x5]; [|discriminate Hwait].
  unfold bind at 1. rewrite Hwait. reflexivity.
Qed.

(** When the wait returns and no transmit status has arrived, or one has
    but no answer, and no error is set yet, the error says which. *)
Lemma timeout_is_reported (s : Cmd) :
  truthy_str (_error s) = false ->
  (_received_status s = false ->
   _send_zdo_after_wait s
   = (Ok tt, set_error (Some "ZDO command not sent") s))
  /\ (_received_status s = true -> _received_answer s = false ->
      _send_zdo_after_wait s
      = (Ok tt, set_error (Some "ZDO command answer not received") s)).
Proof.
  intros Herr. unfold _send_zdo_after_wait, bind, get, modify. split.
  - intros ->. cbn [negb]. now rewrite Herr.
  - intros -> ->. cbn [negb]. now rewrite Herr.
Qed.

(** C6. A frame that passes the callback's filters and whose status byte is
    not zero: the callback records the error with the status in decimal and
    stops; the subclass's attributes, the radio (so the packets sent) and
    [_data_parsed] are what they were, whatever the subclass's [_parse_data]
    would do; the wait of [_send_zdo] is over, so nothing more is
    delivered; and what [_send_zdo] does after its wait sends nothing
    either, for a subclass whose [_perform_finish_actions] and
    [_notify_process_finished] send nothing (both readers). *)
Theorem nonzero_status_stops (s : Cmd) (frame : ExplicitRXIndicatorPacket)
    (status : Z) (rest : list Z) :
  _running s = true ->
  address_mismatch s frame = false ->
  rx_profile_id frame = _PROFILE_ID ->
  rx_source_endpoint frame = _SOURCE_ENDPOINT ->
  rx_dest_endpoint frame = _DESTINATION_ENDPOINT ->
  rx_cluster_id frame = __receive_cluster_id s ->
  rx_rf_data frame = _current_transaction_id s :: status :: rest ->
  status <> __STATUS_SUCCESS ->
  let message :=
    String.append "Error executing ZDO command (status: "
      (String.append (str_of_int status) ")") in
  let s' := stopped (set_error (Some message) (set_received_answer true s)) in
  _zdo_packet_callback (EXPLICIT_RX_INDICATOR frame) s = (Ok tt, s')
  /\ _error s' = Some message
  /\ _lock s' = true
  /\ vars s' = vars s
  /\ sent_packets (xb s') = sent_packets (xb s)
  /\ _data_parsed s' = _data_parsed s
  /\ (forall answer budget handled pending,
        _lock_wait answer budget handled pending s' = (Ok tt, s'))
  /\ forall zdo_callback,
       (forall x, sent_packets (xb (snd (_perform_finish_actions x)))
                  = sent_packets (xb x)) ->
       (forall x, sent_packets
                    (xb (snd (_notify_process_finished zdo_callback x)))
                  = sent_packets (xb x)) ->
       sent_packets (xb (snd (after_the_wait zdo_callback s')))
       = sent_packets (xb s).
Proof.
  intros Hrun Haddr Hprof Hsrc Hdst Hcl Hdata Hstatus message s'.
  assert (Hcb : _zdo_packet_callback (EXPLICIT_RX_INDICATOR frame) s
                = (Ok tt, s')).
  { unfold _zdo_packet_callback, bind, get, lift, modify.
    rewrite Hrun, Haddr, Hprof, Hsrc, Hdst, Hcl, Hdata. simpl.
    rewrite !Z.eqb_refl. simpl.
    destruct (status =? __STATUS_SUCCESS) eqn:Hs;
      [apply Z.eqb_eq in Hs; contradiction|].
    simpl. apply stop_spec. }
  pose proof (stopped_frame
                (set_error (Some message) (set_received_answer true s)))
    as (Hv & Hx & He & Hd & _).
  split; [exact Hcb|].
  split; [exact He|].
  split; [apply stopped_lock|].
  split; [exact Hv|].
  split; [subst s'; now rewrite Hx|].
  split; [exact Hd|].
  split; [intros; apply lock_wait_over, stopped_lock|].
  intros zdo_callback Hfinish Hnotify.
  rewrite (after_the_wait_keeps_packets zdo_callback s' Hfinish Hnotify).
  subst s'. now rewrite Hx.
Qed.


(** C7 (as amended). When the register was changed and writing it back
    fails, the error of the command becomes the failure to restore,
    whatever error was set before. *)
Theorem restore_failure_replaces_error (s : Cmd) (v : Z) (rest : list Z)
    (msg : string) (later : list (option string)) :
  __configure_ao s = true ->
  __saved_ao s = Some (v :: rest) ->
  set_api_output_mode_errors (xb s) = Some msg :: later ->
  __restore_device s
  = (Ok tt,
     set_error (Some (String.append "Could not restore XBee after ZDO: " msg))
       (set_xb (xb_next_set_ao (xb s)) s)).
Proof.
  intros Hcfg Hsaved Herr.
  unfold __restore_device, bind, get.
  rewrite Hcfg, Hsaved.
  unfold try_except_XBeeException, set_api_output_mode_value, bind, get,
    lift, modify, raise.
  simpl. rewrite Herr. reflexivity.
Qed.

Lemma init_allocates (c : ZDOClass) (xbee : XBee) (cluster receive : Z)
    (configure_ao : bool) (timeout : Z) (v : V) (radio : LocalXBee)
    (a : ClassAttributes) :
  supported xbee = true -> 0 <= cluster -> 0 <= receive -> 0 <= timeout ->
  exists command,
    __init__ c (Some xbee) cluster receive configure_ao timeout v radio a
    = (Ok command, setattr c (next_id (getattr c a)) a)
    /\ _current_transaction_id command = getattr c a.
Proof.
  intros Hsup Hc Hr Ht. unfold __init__, supported in *.
  destruct (cluster <? 0) eqn:H1; [apply Z.ltb_lt in H1; lia|].
  destruct (receive <? 0) eqn:H2; [apply Z.ltb_lt in H2; lia|].
  destruct (timeout <? 0) eqn:H3; [apply Z.ltb_lt in H3; lia|].
  assert (Hget : forall x, getattr c (setattr c x a) = x).
  { intros x. now destruct c. }
  assert (Hset : forall x y, setattr c y (setattr c x a) = setattr c y a).
  { intros x y. now destruct c. }
  destruct (get_protocol xbee); try discriminate;
    unfold bind, gets, modify, ret; rewrite Hget; unfold next_id;
    change (0xFF) with 255;
    destruct (getattr c a + 1 =? 255) eqn:Hw;
    try rewrite Hset; eexists; split; reflexivity.
Qed.

End EngineProperties.

Section ReadersAfterTheWait.
Context {E : Externals}.

(** Neither reader sends anything in [_perform_finish_actions] or
    [_notify_process_finished], so neither sends anything once the wait of
    [_send_zdo] has returned. *)
Lemma readers_send_nothing_after_the_wait (zdo_callback : bool) :
  (forall s : ZDOCommand NodeDescriptorReader_vars,
     sent_packets (xb (snd (after_the_wait zdo_callback s)))
     = sent_packets (xb s))
  /\ (forall s : ZDOCommand RouteTableReader_vars,
        sent_packets (xb (snd (after_the_wait zdo_callback s)))
        = sent_packets (xb s)).
Proof.
  split; intros s; apply after_the_wait_keeps_packets; intros x;
    try reflexivity; now destruct zdo_callback.
Qed.

End ReadersAfterTheWait.

Lemma timeout_is_reported_witness :
  truthy_str (_error running_reader) = false
  /\ _received_status running_reader = false
  /\ _send_zdo_after_wait
       (variant := NodeDescriptorReader_variant (E := sample_externals))
       running_reader
     = (Ok tt, set_error (Some "ZDO command not sent") running_reader).
Proof.
  split; [reflexivity|]. split; [reflexivity|].
  apply (proj1 (@timeout_is_reported _ _
                  (@NodeDescriptorReader_variant sample_externals)
                  running_reader eq_refl)).
  reflexivity.
Defined.

Lemma nonzero_status_stops_witness :
  _running running_reader = true
  /\ address_mismatch (E := sample_externals) running_reader refusal = false
  /\ rx_rf_data refusal = _current_transaction_id running_reader :: [0x84]
  /\ 0x84 <> __STATUS_SUCCESS
  /\ _error (snd (_zdo_packet_callback (E := sample_externals)
                    (EXPLICIT_RX_INDICATOR refusal) running_reader))
     = Some "Error executing ZDO command (status: 132)".
Proof.
  split; [reflexivity|]. split; [reflexivity|]. split; [reflexivity|].
  split; [discriminate|].
  destruct (@nonzero_status_stops sample_externals _
              (@NodeDescriptorReader_request sample_externals)
              (@NodeDescriptorReader_variant sample_externals)
              running_reader refusal
              0x84 [] eq_refl eq_refl eq_refl eq_refl eq_refl eq_refl eq_refl
              ltac:(discriminate)) as [Hcb [Herr _]].
  rewrite Hcb. exact Herr.
Defined.

Lemma restore_failure_replaces_error_witness :
  __configure_ao timed_out_reader = true
  /\ __saved_ao timed_out_reader = Some [0]
  /\ set_api_output_mode_errors (xb timed_out_reader) = [Some "Timeout"]
  /\ __restore_device timed_out_reader
     = (Ok tt,
        set_error (Some "Could not restore XBee after ZDO: Timeout")
          (set_xb (xb_next_set_ao (xb timed_out_reader)) timed_out_reader)).
Proof.
  split; [reflexivity|]. split; [reflexivity|]. split; [reflexivity|].
  apply (@restore_failure_replaces_error _ timed_out_reader 0 [] "Timeout" []);
    reflexivity.
Defined.

(** C7 as stated does not hold. A reader whose error is already "ZDO
    command not sent" and whose register cannot be written back ends with
    the restore failure as its error; and a whole exchange in which nothing
    answers ends with "ZDO command not sent" when the register is written
    back, and with the restore failure when it is not. *)
Lemma restore_failure_masks_earlier_error :
  _error timed_out_reader = Some "ZDO command not sent"
  /\ _error (snd (__restore_device timed_out_reader))
     = Some "Could not restore XBee after ZDO: Timeout"
  /\ _error (snd (__restore_device timed_out_reader))
     <> _error timed_out_reader
  /\ _error (snd (_send_zdo (E := sample_externals) false silence
                    scenario_reader))
     = Some "ZDO command not sent"
  /\ _error (snd (_send_zdo (E := sample_externals) false silence
                    (set_xb radio_failing_restore scenario_reader)))
     = Some "Could not restore XBee after ZDO: Timeout".
Proof.
  split; [reflexivity|]. split; [reflexivity|]. split; [discriminate|].
  split; reflexivity.
Qed.

(** C8, on the code. In a freshly loaded module, a node-descriptor reader
    and a route-table reader constructed one after the other both get
    transaction identifier 1: each class counts for itself. *)
Theorem two_classes_two_counters :
  two_readers module_loaded
  = (Ok (1, 1),
     {| ZDOCommand__global_transaction_id := 1;
        NodeDescriptorReader__global_transaction_id := Some 2;
        RouteTableReader__global_transaction_id := Some 2 |}).
Proof. reflexivity. Qed.

Lemma next_id_range (g : Z) : 1 <= g <= 254 -> 1 <= next_id g <= 254.
Proof.
  intros Hg. unfold next_id.
  destruct (g + 1 =? 255) eqn:Hw; [lia|]. apply Z.eqb_neq in Hw. lia.
Qed.

Lemma getattr_setattr (c : ZDOClass) (x : Z) (a : ClassAttributes) :
  getattr c (setattr c x a) = x.
Proof. now destruct c. Qed.

#[local] Arguments nth_id : simpl never.

Lemma successive_ids_from (c : ZDOClass) (xbee : XBee) (n : nat) :
  supported xbee = true ->
  forall a, 1 <= getattr c a <= 254 ->
  fst (successive_ids c xbee n a) = Ok (map (nth_id (getattr c a)) (seq 0 n)).
Proof.
  intros Hsup. induction n as [|n IH]; intros a Hg; [reflexivity|].
  cbn [successive_ids]. unfold bind at 1.
  destruct (init_allocates (V := unit) c xbee 0 0 true 0 tt idle_radio a
              Hsup ltac:(lia) ltac:(lia) ltac:(lia)) as [command [Hinit Hid]].
  rewrite Hinit. unfold bind at 1.
  specialize (IH (setattr c (next_id (getattr c a)) a)).
  rewrite getattr_setattr in IH. specialize (IH (next_id_range _ Hg)).
  destruct (successive_ids c xbee n (setattr c (next_id (getattr c a)) a))
    as [[ids|e] a'] eqn:Hrest; cbn [fst] in IH; [|discriminate].
  injection IH as ->. unfold ret. cbn [fst map seq]. f_equal. f_equal.
  - unfold nth_id. change (Z.of_nat 0) with 0.
    rewrite Hid, Z.add_0_r, Z.mod_small by lia. lia.
  - rewrite <- seq_shift, map_map. apply map_ext. intros k.
    unfold nth_id. f_equal. unfold next_id.
    destruct (getattr c a + 1 =? 255) eqn:Hw.
    + apply Z.eqb_eq in Hw.
      replace (getattr c a - 1 + Z.of_nat (S k)) with (Z.of_nat k + 1 * 254)
        by lia.
      rewrite Z.mod_add by lia. f_equal; lia.
    + f_equal; lia.
Qed.

(** The identifiers of the commands of one class. In a freshly loaded
    module, the commands of one class constructed one after the other get
    the identifiers 1, 2, ..., 254, 1, 2, ...: the k-th (from 0) gets
    1 + k mod 254, which is in [1, 254]. *)
Theorem one_class_ids_cycle (c : ZDOClass) (xbee : XBee) (n : nat) :
  supported xbee = true ->
  fst (successive_ids c xbee n module_loaded) = Ok (map (nth_id 1) (seq 0 n))
  /\ forall k, nth_id 1 k = 1 + Z.of_nat k mod 254
               /\ 1 <= nth_id 1 k <= 254.
Proof.
  intros Hsup. split.
  - assert (Hone : getattr c module_loaded = 1) by now destruct c.
    rewrite (successive_ids_from c xbee n Hsup module_loaded), Hone by lia.
    reflexivity.
  - intros k. unfold nth_id.
    replace (1 - 1 + Z.of_nat k) with (Z.of_nat k) by lia.
    pose proof (Z.mod_pos_bound (Z.of_nat k) 254). lia.
Qed.

Lemma one_class_ids_cycle_witness :
  supported node_1234 = true
  /\ fst (successive_ids class_RouteTableReader node_1234 256 module_loaded)
     = Ok (map (nth_id 1) (seq 0 256)).
Proof.
  split; [reflexivity|].
  apply (one_class_ids_cycle class_RouteTableReader node_1234 256 eq_refl).
Defined.

(* ===================================================================== *)
(** ** Properties of the route-table reader                              *)
(* ===================================================================== *)

Section RouteTableProperties.
Context {E : Externals}.

#[local] Abbreviation RTReader := (ZDOCommand RouteTableReader_vars).

#[local] Arguments utils.is_bit_enabled : simpl never.
#[local] Arguments utils.get_int_from_byte : simpl never.
#[local] Arguments RouteStatus.get : simpl never.
#[local] Arguments XBee16BitAddress.eqb : simpl never.
#[local] Arguments XBee16BitAddress.from_bytes : simpl never.

Lemma parse_route_entry (e : RouteEntry) :
  __parse_route (entry_bytes e) = Ok (route_of_entry e).
Proof. reflexivity. Qed.

Lemma status_field_range (b : Z) : 0 <= utils.get_int_from_byte b 0 3 <= 7.
Proof.
  unfold utils.get_int_from_byte. rewrite Z.shiftr_0_r, Z.land_ones by lia.
  pose proof (Z.mod_pos_bound b (2 ^ 3)). lia.
Qed.

Lemma RouteStatus_get_unknown (identifier : Z) :
  RouteStatus.get identifier = Some UNKNOWN <-> identifier = -1.
Proof.
  unfold RouteStatus.get, RouteStatus.members. cbn [find RouteStatus.id].
  split.
  - intros H.
    repeat match type of H with
           | context [?a =? ?b] =>
               destruct (Z.eqb_spec a b); [discriminate H || assumption|]
           end.
    discriminate H.
  - intros ->. reflexivity.
Qed.

Lemma RouteStatus_get_none (identifier : Z) :
  5 <= identifier -> RouteStatus.get identifier = None.
Proof.
  intros H. unfold RouteStatus.get, RouteStatus.members.
  cbn [find RouteStatus.id].
  repeat match goal with
         | |- context [?a =? ?b] => destruct (Z.eqb_spec a b); [lia|]
         end.
  reflexivity.
Qed.

Lemma len_app {A} (l1 l2 : list A) : len (l1 ++ l2) = len l1 + len l2.
Proof. unfold len. rewrite length_app. lia. Qed.

Lemma len_nonneg {A} (l : list A) : 0 <= len l.
Proof. unfold len. lia. Qed.

Lemma len_entries (es : list RouteEntry) :
  len (List.concat (map entry_bytes es)) = 5 * len es.
Proof.
  induction es as [|e es IH]; [reflexivity|].
  cbn [map List.concat]. rewrite len_app, IH. unfold len.
  change (List.length (entry_bytes e)) with 5%nat. cbn [List.length]. lia.
Qed.

(** The five bytes at [byte_index] are those of the entry that starts
    there. *)
Lemma slice_entry (pre : list Z) (e : RouteEntry) (post : list Z) :
  slice (pre ++ entry_bytes e ++ post) (len pre) (len pre + __ROUTE_BYTES_LEN)
  = entry_bytes e.
Proof.
  unfold slice, clip, __ROUTE_BYTES_LEN.
  pose proof (len_nonneg pre) as Hpre. pose proof (len_nonneg post) as Hpost.
  assert (Hlen : len (pre ++ entry_bytes e ++ post) = len pre + 5 + len post).
  { rewrite !len_app. change (len (entry_bytes e)) with 5. lia. }
  rewrite Hlen.
  destruct (len pre <? 0) eqn:H1; [apply Z.ltb_lt in H1; lia|].
  destruct (len pre + 5 <? 0) eqn:H2; [apply Z.ltb_lt in H2; lia|].
  rewrite !Z.min_l by lia.
  replace (len pre + 5 - len pre) with 5 by lia.
  unfold len. rewrite Nat2Z.id, skipn_app, skipn_all, Nat.sub_diag.
  reflexivity.
Qed.

Lemma with_routes_nil (routes : list Route) (s : RTReader) :
  __routes (vars s) = Some routes -> with_routes routes [] s = s.
Proof.
  intros H. destruct s as [? ? ? ? ? ? ? ? ? ? ? ? ? ? v ? ?].
  destruct v as [? ? ? cb ? ?]. simpl in H. subst.
  unfold with_routes, set_vars. simpl.
  rewrite app_nil_r, Z.add_0_r. destruct cb; now rewrite ?app_nil_r.
Qed.

Lemma with_routes_cons (routes rs : list Route) (r : Route) (s : RTReader) :
  with_routes (routes ++ [r]) rs (with_routes routes [r] s)
  = with_routes routes (r :: rs) s.
Proof.
  unfold with_routes, set_vars. simpl.
  rewrite <- !app_assoc. simpl.
  replace (__index (vars s) + len [r] + len rs)
    with (__index (vars s) + len (r :: rs))
    by (unfold len; simpl List.length; lia).
  destruct (__cb (vars s)); now rewrite <- ?app_assoc.
Qed.

(** One turn of the loop: the route is appended, reported to the callback
    if there is one, and counted. *)
Lemma take_route_counted (routes : list Route) (r : Route) (s : RTReader) :
  __routes (vars s) = Some routes ->
  (take_route r ;;
   modify (fun s => set_vars (set_index (__index (vars s) + 1) (vars s)) s)) s
  = (Ok tt, with_routes routes [r] s).
Proof.
  intros H. unfold take_route, bind, get, modify, ret. rewrite H.
  unfold with_routes.
  destruct (__cb (vars s)) eqn:Hcb;
    unfold set_vars, set_index, set_route_callback_calls, set_routes;
    cbn [vars __routes __total_routes __index __cb route_callback_calls
         process_finished_calls _xbee __cluster_id __receive_cluster_id
         __configure_ao __timeout __saved_ao _running _error __zdo_thread
         _lock _received_status _received_answer _data_parsed
         _current_transaction_id xb zdo_callback_calls];
    rewrite ?Hcb; reflexivity.
Qed.

(** The loop of [_parse_data] on a payload that carries the entries [es]
    from [byte_index] on: all of them are taken, in order, as soon as the
    fuel is at least their number. *)
Lemma parse_routes_while_entries (es : list RouteEntry) :
  forall (fuel : nat) (pre : list Z) (routes : list Route) (s : RTReader),
    (List.length es <= fuel)%nat ->
    3 <= len pre ->
    __routes (vars s) = Some routes ->
    parse_routes_while fuel (pre ++ List.concat (map entry_bytes es)) 3
      (len (pre ++ List.concat (map entry_bytes es)) - 3) (len pre) s
    = (Ok tt, with_routes routes (map route_of_entry es) s).
Proof.
  induction es as [|e es IH]; intros fuel pre routes s Hfuel Hpre Hroutes.
  - cbn [map List.concat]. rewrite app_nil_r, with_routes_nil by assumption.
    destruct fuel; [reflexivity|]. cbn [parse_routes_while].
    destruct (len pre + 1 <? len pre - 3) eqn:H1;
      [apply Z.ltb_lt in H1; lia|reflexivity].
  - destruct fuel as [|fuel]; [simpl in Hfuel; lia|].
    cbn [parse_routes_while map List.concat].
    pose proof (len_nonneg (List.concat (map entry_bytes es))) as Hrest.
    assert (Hlen : len (pre ++ entry_bytes e ++ List.concat (map entry_bytes es))
                   = len pre + 5 + len (List.concat (map entry_bytes es))).
    { rewrite !len_app. change (len (entry_bytes e)) with 5. lia. }
    rewrite Hlen. unfold __ROUTE_BYTES_LEN at 1.
    destruct (len pre + 1
              <? len pre + 5 + len (List.concat (map entry_bytes es)) - 3)
      eqn:H1; [|apply Z.ltb_ge in H1; lia].
    destruct (len pre + 5
              >? len pre + 5 + len (List.concat (map entry_bytes es)) - 3 + 3)
      eqn:H2; [apply Z.gtb_lt in H2; lia|].
    rewrite slice_entry, parse_route_entry.
    unfold bind at 1, lift at 1.
    change (bind (take_route (route_of_entry e)) ?k)
      with (bind (take_route (route_of_entry e)) k).
    pose proof (take_route_counted routes (route_of_entry e) s Hroutes) as Hone.
    unfold bind in Hone |- *.
    destruct (take_route (route_of_entry e) s) as [[[]|ex] s1] eqn:Htake.
    + destruct (modify
                  (fun s => set_vars (set_index (__index (vars s) + 1) (vars s)) s)
                  s1) as [[[]|ex] s2] eqn:Hbump; [|discriminate Hone].
      injection Hone as ->.
      specialize (IH fuel (pre ++ entry_bytes e) (routes ++ [route_of_entry e])
                    (with_routes routes [route_of_entry e] s)).
      rewrite <- app_assoc in IH.
      replace (len (pre ++ entry_bytes e)) with (len pre + __ROUTE_BYTES_LEN)
        in IH by (rewrite len_app; reflexivity).
      rewrite Hlen in IH. rewrite IH.
      * now rewrite with_routes_cons.
      * simpl in Hfuel. lia.
      * unfold __ROUTE_BYTES_LEN. lia.
      * unfold with_routes. simpl. reflexivity.
    + discriminate Hone.
Qed.

(** The fuel of the loop does not matter once it covers the distance
    between [byte_index] and [n_route_data_bytes]; the length of the
    payload, which [_parse_data] gives it, does. *)
Lemma parse_routes_while_fuel (data : list Z) (start n : Z) :
  forall (fuel1 fuel2 : nat) (byte_index : Z) (s : RTReader),
    (Z.to_nat (n - byte_index) <= fuel1)%nat ->
    (Z.to_nat (n - byte_index) <= fuel2)%nat ->
    parse_routes_while fuel1 data start n byte_index s
    = parse_routes_while fuel2 data start n byte_index s.
Proof.
  induction fuel1 as [|fuel1 IH]; intros fuel2 byte_index s H1 H2.
  - destruct fuel2 as [|fuel2]; [reflexivity|]. cbn [parse_routes_while].
    destruct (byte_index + 1 <? n) eqn:Hc; [apply Z.ltb_lt in Hc; lia|].
    reflexivity.
  - destruct fuel2 as [|fuel2]; cbn [parse_routes_while];
      destruct (byte_index + 1 <? n) eqn:Hc; try reflexivity.
    + apply Z.ltb_lt in Hc. lia.
    + apply Z.ltb_lt in Hc.
      destruct (byte_index + __ROUTE_BYTES_LEN >? n + start); [reflexivity|].
      unfold bind.
      destruct (lift (__parse_route
                        (slice data byte_index (byte_index + __ROUTE_BYTES_LEN)))
                  s) as [[r|ex] s1]; [|reflexivity].
      destruct (take_route r s1) as [[[]|ex] s2]; [|reflexivity].
      destruct (modify
                  (fun s => set_vars (set_index (__index (vars s) + 1) (vars s)) s)
                  s2) as [[[]|ex] s3]; [|reflexivity].
      apply IH; unfold __ROUTE_BYTES_LEN; lia.
Qed.

Lemma parse_data_fuel (data : list Z) (fuel : nat) (s : RTReader) :
  (List.length data <= fuel)%nat ->
  parse_routes_while fuel data 3 (len data - 3) 3 s
  = parse_routes_while (List.length data) data 3 (len data - 3) 3 s.
Proof.
  intros H. apply parse_routes_while_fuel; unfold len; lia.
Qed.

Lemma get_next_routes_sends (s : RTReader) :
  is_byte (_current_transaction_id s) = true ->
  is_byte (__index (vars s)) = true ->
  next_outcome (send_packet_errors (xb s)) = None ->
  __get_next_routes s = (Ok tt, sent_request s).
Proof.
  intros Htid Hidx Hsend.
  unfold __get_next_routes, try_except_XBeeException, _generate_zdo_packet,
    send_packet, bind, get, modify, ret.
  cbn [_is_broadcast _get_zdo_command_data RouteTableReader_request].
  unfold RouteTableReader_get_zdo_command_data, bind, get, lift, bytearray.
  cbn [forallb]. rewrite Htid, Hidx. cbn [andb xb set_xb].
  rewrite Hsend. reflexivity.
Qed.

Lemma length_entries (es : list RouteEntry) :
  List.length (List.concat (map entry_bytes es)) = (5 * List.length es)%nat.
Proof.
  induction es as [|e es IH]; [reflexivity|].
  cbn [map List.concat]. rewrite length_app, IH. simpl. lia.
Qed.

(** [_parse_data] on an answer that carries entries: the total is stored
    and the entries are taken; then either more are asked for or the
    reading is complete. *)
Lemma parse_data_entries (total start : Z) (es : list RouteEntry)
    (routes : list Route) (s : RTReader) :
  __routes (vars s) = Some routes ->
  es <> [] ->
  RouteTableReader_parse_data
    (total :: start :: len es :: List.concat (map entry_bytes es)) s
  = let s' := with_routes routes (map route_of_entry es) (with_total total s) in
    if __index (vars s) + len es <? total
    then (__get_next_routes ;; ret false) s'
    else (Ok true, s').
Proof.
  intros Hroutes Hes.
  set (data := total :: start :: len es :: List.concat (map entry_bytes es)).
  transitivity
    ((parse_routes_while (List.length data) data 3 (len data - 3) 3 ;;
      s0 <- get ;;
      if __index (vars s0) <? __total_routes (vars s0)
      then __get_next_routes ;; ret false
      else ret true) (with_total total s)).
  { unfold RouteTableReader_parse_data, data.
    unfold bind at 1, lift at 1. cbn [getitem Z.ltb Z.compare].
    change (nth_error (total :: start :: len es
                         :: List.concat (map entry_bytes es)) (Z.to_nat 0))
      with (Some total).
    cbv iota beta. unfold bind at 1, modify at 1. unfold bind at 1, lift at 1.
    cbn [getitem Z.ltb Z.compare].
    change (nth_error (total :: start :: len es
                         :: List.concat (map entry_bytes es)) (Z.to_nat 2))
      with (Some (len es)).
    cbv iota beta.
    destruct (len es =? 0) eqn:Hz; [|reflexivity].
    apply Z.eqb_eq in Hz. destruct es; [contradiction|discriminate Hz]. }
  pose proof (parse_routes_while_entries es (List.length data)
                [total; start; len es] routes (with_total total s)) as Hloop.
  cbn [app] in Hloop. change (len [total; start; len es]) with 3 in Hloop.
  fold data in Hloop.
  unfold bind at 1. rewrite Hloop.
  - unfold bind, get. cbv zeta.
    change (__index (vars (with_routes routes (map route_of_entry es)
                             (with_total total s))))
      with (__index (vars s) + len (map route_of_entry es)).
    change (__total_routes (vars (with_routes routes (map route_of_entry es)
                                    (with_total total s))))
      with total.
    unfold len at 1. rewrite length_map. fold (len es).
    destruct (__index (vars s) + len es <? total); reflexivity.
  - unfold data. cbn [List.length]. rewrite length_entries. lia.
  - lia.
  - exact Hroutes.
Qed.

(** [_parse_data] on an answer that says it carries no entry: the total is
    stored, the request is sent again, and the reading counts as
    complete. *)
Lemma parse_data_no_entries (total start : Z) (rest : list Z) (s : RTReader) :
  RouteTableReader_parse_data (total :: start :: 0 :: rest) s
  = (__get_next_routes ;; ret true) (with_total total s).
Proof. reflexivity. Qed.

Lemma is_byte_range (b : Z) : 0 <= b <= 255 -> is_byte b = true.
Proof.
  intros H. unfold is_byte. apply andb_true_iff. split.
  - apply Z.leb_le. lia.
  - apply Z.ltb_lt. lia.
Qed.

(** The callback on an answer that carries entries. *)
Lemma callback_entries (s : RTReader) (frame : ExplicitRXIndicatorPacket)
    (total start : Z) (es : list RouteEntry) (routes : list Route) :
  _running s = true ->
  address_mismatch s frame = false ->
  rx_profile_id frame = _PROFILE_ID ->
  rx_source_endpoint frame = _SOURCE_ENDPOINT ->
  rx_dest_endpoint frame = _DESTINATION_ENDPOINT ->
  rx_cluster_id frame = __receive_cluster_id s ->
  rx_rf_data frame
  = _current_transaction_id s :: __STATUS_SUCCESS
      :: total :: start :: len es :: List.concat (map entry_bytes es) ->
  es <> [] ->
  __routes (vars s) = Some routes ->
  is_byte (_current_transaction_id s) = true ->
  0 <= __index (vars s) ->
  total <= 255 ->
  next_outcome (send_packet_errors (xb s)) = None ->
  _zdo_packet_callback (EXPLICIT_RX_INDICATOR frame) s
  = (Ok tt, after_answer total es routes s).
Proof.
  intros Hrun Haddr Hprof Hsrc Hdst Hcl Hdata Hes Hroutes Htid Hidx Htotal
    Hsend.
  rewrite (callback_answer s frame _ Hrun Haddr Hprof Hsrc Hdst Hcl Hdata).
  cbn [_parse_data RouteTableReader_variant]. unfold bind at 1.
  rewrite (parse_data_entries total start es routes
             (set_received_answer true s) Hroutes Hes).
  cbv zeta. unfold after_answer.
  change (__index (vars (set_received_answer true s)))
    with (__index (vars s)).
  destruct (__index (vars s) + len es <? total) eqn:Hmore.
  - apply Z.ltb_lt in Hmore. unfold bind at 1.
    rewrite get_next_routes_sends.
    + reflexivity.
    + exact Htid.
    + change (is_byte (__index (vars s) + len (map route_of_entry es)) = true).
      apply is_byte_range. unfold len in *. rewrite length_map. lia.
    + exact Hsend.
  - unfold bind, modify, get.
    change (_received_status
              (set_data_parsed true
                 (with_routes routes (map route_of_entry es)
                    (with_total total (set_received_answer true s)))))
      with (_received_status s).
    cbn [_data_parsed set_data_parsed andb].
    destruct (_received_status s); [apply stop_spec|reflexivity].
Qed.

(** The callback on an answer that says it carries no entry. *)
Lemma callback_no_entries (s : RTReader) (frame : ExplicitRXIndicatorPacket)
    (total start : Z) (rest : list Z) :
  _running s = true ->
  address_mismatch s frame = false ->
  rx_profile_id frame = _PROFILE_ID ->
  rx_source_endpoint frame = _SOURCE_ENDPOINT ->
  rx_dest_endpoint frame = _DESTINATION_ENDPOINT ->
  rx_cluster_id frame = __receive_cluster_id s ->
  rx_rf_data frame
  = _current_transaction_id s :: __STATUS_SUCCESS
      :: total :: start :: 0 :: rest ->
  is_byte (_current_transaction_id s) = true ->
  is_byte (__index (vars s)) = true ->
  next_outcome (send_packet_errors (xb s)) = None ->
  _zdo_packet_callback (EXPLICIT_RX_INDICATOR frame) s
  = (Ok tt, after_empty_answer total s).
Proof.
  intros Hrun Haddr Hprof Hsrc Hdst Hcl Hdata Htid Hidx Hsend.
  rewrite (callback_answer s frame _ Hrun Haddr Hprof Hsrc Hdst Hcl Hdata).
  cbn [_parse_data RouteTableReader_variant].
  unfold bind at 1. rewrite parse_data_no_entries.
  unfold bind at 1. rewrite get_next_routes_sends by assumption.
  unfold ret at 1. unfold bind, modify, get. unfold after_empty_answer.
  change (_received_status
            (set_data_parsed true
               (sent_request (with_total total (set_received_answer true s)))))
    with (_received_status s).
  cbn [_data_parsed set_data_parsed andb].
  destruct (_received_status s); [apply stop_spec|reflexivity].
Qed.

(** No entry decodes to the [UNKNOWN] member: the status field cannot take
    its identifier, -1. *)
Lemma status_never_unknown (b0 b1 b2 b3 b4 : Z) :
  exists r,
    __parse_route [b0; b1; b2; b3; b4] = Ok r /\ status r <> Some UNKNOWN.
Proof.
  eexists. split; [reflexivity|]. cbn [status].
  rewrite RouteStatus_get_unknown.
  pose proof (status_field_range b2). unfold __ST_FIELD_OFFSET, __ST_FIELD_LEN.
  lia.
Qed.

(** C3 (as amended). A five-byte entry whose status field (bits 0 to 2 of
    the flags byte) is 5, 6 or 7 decodes to a route whose status is absent
    ([RouteStatus.get] returns [None]), not the [UNKNOWN] member. *)
Theorem unrecognized_status_is_absent (b0 b1 b2 b3 b4 : Z) :
  5 <= utils.get_int_from_byte b2 0 3 <= 7 ->
  exists r,
    __parse_route [b0; b1; b2; b3; b4] = Ok r
    /\ status r = None
    /\ status r <> Some UNKNOWN.
Proof.
  intros H. eexists. split; [reflexivity|]. cbn [status].
  unfold __ST_FIELD_OFFSET, __ST_FIELD_LEN.
  rewrite RouteStatus_get_none by apply H. split; [reflexivity|discriminate].
Qed.

Lemma requests_needed_one (x c : Z) :
  1 <= x <= c -> requests_needed x c = 1.
Proof.
  intros H. unfold requests_needed.
  replace (x + c - 1) with (x - 1 + 1 * c) by lia.
  rewrite Z.div_add by lia. rewrite Z.div_small by lia. lia.
Qed.

Lemma requests_needed_more (x c : Z) :
  1 <= c -> c < x -> requests_needed x c = 1 + requests_needed (x - c) c.
Proof.
  intros Hc Hx. unfold requests_needed.
  replace (x + c - 1) with (x - c + c - 1 + 1 * c) by lia.
  rewrite Z.div_add by lia. lia.
Qed.

(** What the device answers to the request for the entries from [i] on. *)
Lemma device_answers (table : list RouteEntry) (c : nat) (sw : RTReader)
    (i : nat) :
  route_table_device table c (request_packet sw (Z.of_nat i))
  = [TRANSMIT_STATUS (_current_transaction_id sw) SUCCESS;
     EXPLICIT_RX_INDICATOR
       {| x64bit_source_addr := get_64bit_addr (_xbee sw);
          x16bit_source_addr := get_16bit_addr (_xbee sw);
          rx_source_endpoint := 0x00;
          rx_dest_endpoint := 0x00;
          rx_cluster_id := 0x8032;
          rx_profile_id := 0x0000;
          rx_rf_data :=
            _current_transaction_id sw :: 0x00 :: len table :: Z.of_nat i
              :: len (firstn c (skipn i table))
              :: List.concat (map entry_bytes (firstn c (skipn i table))) |}].
Proof.
  unfold route_table_device, route_table_response. cbn [rf_data request_packet].
  now rewrite Nat2Z.id.
Qed.

Lemma setup_fields (s sw : RTReader) :
  setup s = setup sw ->
  _xbee s = _xbee sw
  /\ __cluster_id s = __cluster_id sw
  /\ __receive_cluster_id s = __receive_cluster_id sw
  /\ _current_transaction_id s = _current_transaction_id sw.
Proof. unfold setup. intros H. injection H. auto. Qed.

Lemma request_packet_setup (s sw : RTReader) (index : Z) :
  setup s = setup sw -> request_packet s index = request_packet sw index.
Proof.
  intros H. apply setup_fields in H as (Hx & Hc & _ & Ht).
  unfold request_packet. now rewrite Hx, Hc, Ht.
Qed.

Lemma firstn_plus {A} (n m : nat) (l : list A) :
  firstn (n + m) l = firstn n l ++ firstn m (skipn n l).
Proof.
  revert l. induction n as [|n IH]; intros l; [reflexivity|].
  destruct l as [|a l]; [now destruct m|].
  cbn [Nat.add firstn skipn app]. now rewrite IH.
Qed.

Section Paging.
Variable table : list RouteEntry.
Variable c : nat.
Variable sw : RTReader.
Hypothesis receive_cluster :
  __receive_cluster_id sw = RouteTableReader__RECEIVE_CLUSTER_ID.
Hypothesis tid_byte : is_byte (_current_transaction_id sw) = true.
Hypothesis c_positive : (1 <= c)%nat.
Hypothesis table_fits : (List.length table <= 255)%nat.

(** The entries the device puts in its answer to the request from [i]. *)
#[local] Abbreviation carried i := (firstn c (skipn i table)).

Lemma carried_length (i : nat) :
  List.length (carried i) = Nat.min c (List.length table - i).
Proof. now rewrite length_firstn, length_skipn. Qed.

Lemma carried_some (i : nat) :
  (i < List.length table)%nat -> carried i <> [].
Proof.
  intros Hi Hnil. apply (f_equal (@List.length _)) in Hnil.
  rewrite carried_length in Hnil. simpl in Hnil. lia.
Qed.

(** One round of the wait: the request is fetched, its transmit status and
    its answer are delivered. *)
Lemma paging_round (s : RTReader) (i handled budget : nat) :
  paging table sw i handled s ->
  (i < List.length table)%nat ->
  _lock_wait (route_table_device table c) (S (S (S budget))) handled [] s
  = _lock_wait (route_table_device table c) budget (S handled) []
      (after_answer (len table) (carried i)
         (map route_of_entry (firstn i table)) (set_received_status true s)).
Proof.
  intros [Hsetup Hrun Hlock Hparsed Herror Hroutes Hindex Hreq Hsent Hsend] Hi.
  destruct (setup_fields s sw Hsetup) as (Hx & Hc & Hr & Ht).
  rewrite (lock_wait_fetch _ _ _ _ s Hlock Hreq), device_answers.
  rewrite (lock_wait_deliver _ _ _ _ _ s Hlock).
  rewrite <- Ht. rewrite (callback_transmit_success s Hrun).
  unfold bind at 1, get at 1.
  change (_data_parsed (set_received_status true s)) with (_data_parsed s).
  rewrite Hparsed. cbn [snd ret].
  rewrite lock_wait_deliver by exact Hlock.
  rewrite (callback_entries (set_received_status true s) _ (len table)
             (Z.of_nat i) (carried i) (map route_of_entry (firstn i table))).
  - reflexivity.
  - exact Hrun.
  - apply address_matches. cbn [x64bit_source_addr _xbee set_received_status].
    now rewrite Hx.
  - reflexivity.
  - reflexivity.
  - reflexivity.
  - cbn [rx_cluster_id __receive_cluster_id set_received_status].
    now rewrite Hr, receive_cluster.
  - reflexivity.
  - now apply carried_some.
  - exact Hroutes.
  - cbn [_current_transaction_id set_received_status]. now rewrite Ht.
  - cbn [vars set_received_status]. rewrite Hindex. lia.
  - unfold len. lia.
  - cbn [xb set_received_status]. now rewrite Hsend.
Qed.

(** After a round that leaves entries to read, the reader waits for the
    answer to its next request. *)
Lemma paging_more (s : RTReader) (i handled : nat) :
  paging table sw i handled s ->
  (i + c < List.length table)%nat ->
  paging table sw (i + c) (S handled)
    (after_answer (len table) (carried i)
       (map route_of_entry (firstn i table)) (set_received_status true s)).
Proof.
  intros [Hsetup Hrun Hlock Hparsed Herror Hroutes Hindex Hreq Hsent Hsend] Hi.
  assert (Hk : List.length (carried i) = c)
    by (rewrite carried_length; lia).
  assert (Hkz : len (carried i) = Z.of_nat c) by (unfold len; now rewrite Hk).
  unfold after_answer.
  change (__index (vars (set_received_status true s)))
    with (__index (vars s)).
  rewrite Hindex, Hkz.
  destruct (Z.of_nat i + Z.of_nat c <? len table) eqn:Hmore;
    [|apply Z.ltb_ge in Hmore; unfold len in Hmore; lia].
  split.
  - exact Hsetup.
  - exact Hrun.
  - exact Hlock.
  - reflexivity.
  - exact Herror.
  - cbn -[firstn skipn]. now rewrite <- map_app, <- firstn_plus.
  - cbn -[firstn skipn]. unfold len. rewrite Hindex, length_map, Hk. lia.
  - cbn -[firstn skipn Z.of_nat nth_error].
    rewrite nth_error_app2 by lia. rewrite Hsent, Nat.sub_diag.
    cbn [nth_error]. f_equal.
    unfold len. rewrite Hindex, length_map, Hk.
    replace (Z.of_nat i + Z.of_nat c) with (Z.of_nat (i + c)) by lia.
    now apply request_packet_setup.
  - cbn -[firstn skipn]. rewrite length_app, Hsent. simpl. lia.
  - cbn -[firstn skipn]. now rewrite Hsend.
Qed.

(** After the round that brings the last entries, the reader has read the
    whole table and has stopped. *)
Lemma paging_last (s : RTReader) (i handled : nat) :
  paging table sw i handled s ->
  (i < List.length table)%nat ->
  (List.length table <= i + c)%nat ->
  completed table sw (Z.of_nat (S handled))
    (after_answer (len table) (carried i)
       (map route_of_entry (firstn i table)) (set_received_status true s)).
Proof.
  intros [Hsetup Hrun Hlock Hparsed Herror Hroutes Hindex Hreq Hsent Hsend]
    Hi Hlast.
  assert (Hk : List.length (carried i) = (List.length table - i)%nat)
    by (rewrite carried_length; lia).
  assert (Hkz : len (carried i) = Z.of_nat (List.length table - i))
    by (unfold len; now rewrite Hk).
  assert (Hall : firstn i table ++ carried i = table).
  { rewrite <- (firstn_skipn i table) at 3. f_equal.
    apply firstn_all2. rewrite length_skipn. lia. }
  unfold after_answer.
  change (__index (vars (set_received_status true s)))
    with (__index (vars s)).
  rewrite Hindex, Hkz.
  destruct (Z.of_nat i + Z.of_nat (List.length table - i) <? len table)
    eqn:Hmore; [apply Z.ltb_lt in Hmore; unfold len in Hmore; lia|].
  change (_received_status (set_received_status true s)) with true.
  cbv iota.
  match goal with
  | |- completed _ _ _ (stopped ?x) =>
      pose proof (stopped_frame x) as (Hv & Hxb & He & Hd & Ha & Hst & Hr);
      pose proof (stopped_lock x) as Hl
  end.
  split.
  - unfold setup, stopped.
    match goal with
    | |- context [if ?b then _ else _] => destruct b
    end;
    match goal with
    | |- context [if ?b then _ else _] => destruct b
    end; exact Hsetup.
  - now rewrite Hr.
  - exact Hl.
  - now rewrite Hst.
  - now rewrite Ha.
  - now rewrite He.
  - rewrite Hv. cbn -[firstn skipn]. now rewrite <- map_app, Hall.
  - rewrite Hv. cbn -[firstn skipn]. unfold len.
    rewrite Hindex, length_map, Hk. lia.
  - rewrite Hxb. cbn -[firstn skipn]. unfold len. now rewrite Hsent.
Qed.

(** The wait of an exchange with the device: from a reader that waits for
    the answer to its request from [i] on, with time for three deliveries
    per round left, the wait ends with the whole table read, the command
    stopped, and one request sent per round. *)
Lemma paging_completes (m : nat) :
  forall (i handled budget : nat) (s : RTReader),
    paging table sw i handled s ->
    (i < List.length table)%nat ->
    (List.length table - i <= m)%nat ->
    (3 * m <= budget)%nat ->
    exists s',
      _lock_wait (route_table_device table c) budget handled [] s = (Ok tt, s')
      /\ completed table sw
           (Z.of_nat (S handled)
            + requests_needed (Z.of_nat (List.length table - i)) (Z.of_nat c)
            - 1) s'.
Proof.
  induction m as [|m IH]; intros i handled budget s Hpg Hi Hm Hbudget; [lia|].
  destruct budget as [|[|[|budget]]]; try lia.
  rewrite (paging_round s i handled budget Hpg Hi).
  destruct (Nat.ltb_spec (i + c) (List.length table)) as [Hmore|Hlast].
  - destruct (IH (i + c)%nat (S handled) budget _
                (paging_more s i handled Hpg Hmore) Hmore ltac:(lia) ltac:(lia))
      as [s' [Hwait Hdone]].
    exists s'. split; [exact Hwait|].
    rewrite (requests_needed_more (Z.of_nat (List.length table - i))
               (Z.of_nat c)) by lia.
    replace (Z.of_nat (List.length table - i) - Z.of_nat c)
      with (Z.of_nat (List.length table - (i + c))) by lia.
    replace (Z.of_nat (S handled)
             + (1 + requests_needed (Z.of_nat (List.length table - (i + c)))
                      (Z.of_nat c)) - 1)
      with (Z.of_nat (S (S handled))
            + requests_needed (Z.of_nat (List.length table - (i + c)))
                (Z.of_nat c) - 1) by lia.
    exact Hdone.
  - pose proof (paging_last s i handled Hpg Hi Hlast) as Hdone.
    eexists. split.
    + apply lock_wait_over. apply (cp_lock _ _ _ _ Hdone).
    + rewrite requests_needed_one by lia.
      replace (Z.of_nat (S handled) + 1 - 1) with (Z.of_nat (S handled))
        by lia.
      exact Hdone.
Qed.

End Paging.

Lemma generate_packet (s : RTReader) :
  is_byte (_current_transaction_id s) = true ->
  is_byte (__index (vars s)) = true ->
  _generate_zdo_packet s = (Ok (request_packet s (__index (vars s))), s).
Proof.
  intros Htid Hidx.
  unfold _generate_zdo_packet, bind, get, ret.
  cbn [_is_broadcast _get_zdo_command_data RouteTableReader_request].
  unfold RouteTableReader_get_zdo_command_data, bind, get, lift, bytearray.
  cbn [forallb]. rewrite Htid, Hidx. reflexivity.
Qed.

Lemma send_packet_ok (p : ExplicitAddressingPacket) (s : RTReader) :
  next_outcome (send_packet_errors (xb s)) = None ->
  send_packet p s = (Ok tt, set_xb (xb_send p (xb_next_send (xb s))) s).
Proof.
  intros Hsend. unfold send_packet, bind, get, modify.
  cbn [xb set_xb]. now rewrite Hsend.
Qed.

Lemma restorable_setup (s s' : RTReader) :
  setup s = setup s' -> restorable s' -> restorable s.
Proof.
  unfold setup, restorable. intros H Hres Hcfg.
  injection H as _ _ _ _ Hc Hs He _. rewrite Hs, He. apply Hres. congruence.
Qed.

(** A whole exchange with a device that holds [table] and answers
    [per_response] entries at a time, by a reader constructed for route
    tables, through a healthy radio and with time enough: [_send_zdo]
    returns, one request was sent per answer needed, the routes read are
    those of the table in order, and the command has stopped without
    error. *)
Lemma exchange_reads_table (s : RTReader) (table : list RouteEntry)
    (per_response budget : nat) (zdo_callback : bool) :
  __receive_cluster_id s = RouteTableReader__RECEIVE_CLUSTER_ID ->
  is_byte (_current_transaction_id s) = true ->
  healthy (xb s) ->
  (1 <= List.length table <= 255)%nat ->
  (1 <= per_response)%nat ->
  (3 * List.length table <= budget)%nat ->
  exists final,
    _send_zdo zdo_callback (route_table_environment table per_response budget) s
    = (Ok tt, final)
    /\ len (sent_packets (xb final))
       = len (sent_packets (xb s))
         + requests_needed (len table) (Z.of_nat per_response)
    /\ __routes (vars final) = Some (map route_of_entry table)
    /\ _lock final = true
    /\ _error final = None
    /\ _running final = false
    /\ _received_status final = true
    /\ _received_answer final = true.
Proof.
  intros Hcluster Htid Hhealthy Htable Hper Hbudget.
  unfold _send_zdo.
  do 6 (unfold bind at 1, modify at 1).
  unfold bind at 1, add_packet_received_callback at 1, modify at 1.
  cbn [_init_variables RouteTableReader_variant].
  unfold bind at 1, RouteTableReader_init_variables at 1.
  unfold bind at 1, modify at 1. unfold bind at 1, modify at 1.
  unfold modify at 1.
  match goal with
  | |- context [try_finally _ _ ?st] => set (s0 := st)
  end.
  assert (Hs0_healthy : healthy (xb s0)) by exact Hhealthy.
  assert (Hs0_sent : sent_packets (xb s0) = sent_packets (xb s))
    by reflexivity.
  assert (Hs0_run : _running s0 = true) by reflexivity.
  assert (Hs0_lock : _lock s0 = false) by reflexivity.
  assert (Hs0_parsed : _data_parsed s0 = false) by reflexivity.
  assert (Hs0_error : _error s0 = None) by reflexivity.
  assert (Hs0_routes : __routes (vars s0) = Some []) by reflexivity.
  assert (Hs0_index : __index (vars s0) = 0) by reflexivity.
  assert (Hs0_cluster : __receive_cluster_id s0
                        = RouteTableReader__RECEIVE_CLUSTER_ID)
    by exact Hcluster.
  assert (Hs0_tid : is_byte (_current_transaction_id s0) = true)
    by exact Htid.
  clearbody s0.
  destruct (prepare_device_ok s0 Hs0_healthy)
    as (sp & Hprepare & Hapart & _ & Hrestorable).
  assert (Hsp : forall {A} (f : RTReader -> A),
             (forall x, f (apart_from_ao x) = f x) -> f sp = f s0).
  { intros A f Hf. now rewrite <- (Hf sp), <- (Hf s0), Hapart. }
  pose proof (Hsp _ _running (fun x => eq_refl)) as Hsp_run.
  pose proof (Hsp _ _lock (fun x => eq_refl)) as Hsp_lock.
  pose proof (Hsp _ _data_parsed (fun x => eq_refl)) as Hsp_parsed.
  pose proof (Hsp _ _error (fun x => eq_refl)) as Hsp_error.
  pose proof (Hsp _ vars (fun x => eq_refl)) as Hsp_vars.
  pose proof (Hsp _ __receive_cluster_id (fun x => eq_refl)) as Hsp_cluster.
  pose proof (Hsp _ _current_transaction_id (fun x => eq_refl)) as Hsp_tid.
  pose proof (Hsp _ (fun x => sent_packets (xb x)) (fun x => eq_refl))
    as Hsp_sent.
  pose proof (Hsp _ (fun x => send_packet_errors (xb x)) (fun x => eq_refl))
    as Hsp_send.
  cbv beta in Hsp_sent, Hsp_send.
  destruct Hs0_healthy as (Hs0_send & _).
  rewrite Hs0_run in Hsp_run. rewrite Hs0_lock in Hsp_lock.
  rewrite Hs0_parsed in Hsp_parsed. rewrite Hs0_error in Hsp_error.
  rewrite Hs0_cluster in Hsp_cluster. rewrite Hs0_send in Hsp_send.
  unfold try_finally, try_except_XBeeException.
  unfold bind at 1. rewrite Hprepare.
  unfold bind at 1, gets at 1.
  unfold bind at 1.
  rewrite generate_packet
    by (rewrite ?Hsp_tid, ?Hsp_vars, ?Hs0_index; auto using Hs0_tid).
  unfold bind at 1.
  rewrite send_packet_ok by (now rewrite Hsp_send).
  rewrite Hsp_vars, Hs0_index.
  set (sw := set_xb (xb_send (request_packet sp 0) (xb_next_send (xb sp))) sp).
  assert (Hpaging : paging table sw 0 (List.length (sent_packets (xb sp))) sw).
  { split; try assumption; try reflexivity.
    - unfold sw. cbn [vars set_xb]. now rewrite Hsp_vars, Hs0_routes.
    - unfold sw. cbn [vars set_xb]. now rewrite Hsp_vars, Hs0_index.
    - unfold sw. cbn [xb set_xb sent_packets xb_send xb_next_send].
      rewrite nth_error_app2 by lia. now rewrite Nat.sub_diag.
    - unfold sw. cbn [xb set_xb sent_packets xb_send xb_next_send].
      rewrite length_app. cbn [List.length]. lia.
    - unfold sw. cbn [xb set_xb send_packet_errors xb_send xb_next_send].
      now rewrite Hsp_send. }
  unfold bind at 1. cbn [answer patience route_table_environment].
  destruct (paging_completes table per_response sw Hsp_cluster
              ltac:(unfold sw; cbn [_current_transaction_id set_xb];
                    now rewrite Hsp_tid)
              Hper ltac:(lia) (List.length table) 0
              (List.length (sent_packets (xb sp))) budget sw Hpaging
              ltac:(lia) ltac:(lia) Hbudget)
    as (sf & Hwait & Hdone).
  rewrite Hwait.
  destruct Hdone as [Hf_setup Hf_run Hf_lock Hf_status Hf_answer Hf_error
                       Hf_routes Hf_index Hf_sent].
  unfold _send_zdo_after_wait, _send_zdo_finally.
  unfold bind at 1, get at 1. rewrite Hf_status, Hf_answer.
  cbn [negb _perform_finish_actions RouteTableReader_variant]. unfold ret at 1.
  unfold bind at 1, del_packet_received_callback at 1, modify at 1.
  set (s1 := set_xb _ sf).
  assert (Hrestorable1 : restorable s1).
  { apply (restorable_setup s1 sw); [exact Hf_setup|].
    intros Hcfg. apply Hrestorable. exact Hcfg. }
  destruct (restore_device_ok s1 Hrestorable1) as (s2 & Hrestore & Hapart2).
  assert (Hs2 : forall {A} (f : RTReader -> A),
             (forall x, f (apart_from_ao x) = f x) -> f s2 = f s1).
  { intros A f Hf. now rewrite <- (Hf s2), <- (Hf s1), Hapart2. }
  unfold bind at 1. rewrite Hrestore.
  cbn [_notify_process_finished RouteTableReader_variant].
  unfold RouteTableReader_notify_process_finished.
  pose proof (Hs2 _ _lock (fun x => eq_refl)) as Hs2_lock.
  pose proof (Hs2 _ _error (fun x => eq_refl)) as Hs2_error.
  pose proof (Hs2 _ vars (fun x => eq_refl)) as Hs2_vars.
  pose proof (Hs2 _ _received_status (fun x => eq_refl)) as Hs2_status.
  pose proof (Hs2 _ _received_answer (fun x => eq_refl)) as Hs2_answer.
  pose proof (Hs2 _ (fun x => sent_packets (xb x)) (fun x => eq_refl))
    as Hs2_sent.
  cbv beta in Hs2_sent.
  assert (Hcount : len (sent_packets (xb s2))
                   = len (sent_packets (xb s))
                     + requests_needed (len table) (Z.of_nat per_response)).
  { rewrite Hs2_sent. change (sent_packets (xb s1)) with (sent_packets (xb sf)).
    rewrite Hf_sent, Hsp_sent, Hs0_sent, Nat.sub_0_r. unfold len. lia. }
  destruct zdo_callback; unfold bind, modify, ret;
    (eexists; split; [reflexivity|]);
    cbn [xb vars set_running set_vars _lock _error _running _received_status
         _received_answer __routes set_process_finished_calls];
    rewrite ?Hs2_vars, ?Hs2_lock, ?Hs2_error, ?Hs2_status, ?Hs2_answer;
    repeat split; assumption.
Qed.

(** [requests_needed total c] is the ceiling of [total / c]: the least
    number of answers of [c] entries that cover [total]. *)
Lemma requests_needed_ceiling (total c : Z) :
  1 <= c ->
  (requests_needed total c - 1) * c < total <= requests_needed total c * c.
Proof.
  intros Hc. unfold requests_needed.
  pose proof (Z.div_mod (total + c - 1) c ltac:(lia)) as Hdiv.
  pose proof (Z.mod_pos_bound (total + c - 1) c ltac:(lia)) as Hmod.
  nia.
Qed.

(** C4. A reader for route tables, through a healthy radio, against a
    device that holds T entries (1 <= T <= 255, the total being one byte)
    and answers every request with the total T and the next c entries (the
    last answer with those that remain), c >= 1, with a timeout that leaves
    time for the deliveries: [_send_zdo] returns; the radio has sent
    exactly ceil(T / c) requests more; the reader holds exactly T routes,
    those of the table in order; and the command has stopped (the event is
    set, it no longer runs) without error. *)
Theorem pagination_terminates (s : RTReader) (table : list RouteEntry)
    (c budget : nat) (zdo_callback : bool) :
  __receive_cluster_id s = RouteTableReader__RECEIVE_CLUSTER_ID ->
  is_byte (_current_transaction_id s) = true ->
  healthy (xb s) ->
  (1 <= List.length table <= 255)%nat ->
  (1 <= c)%nat ->
  (3 * List.length table <= budget)%nat ->
  exists (final : RTReader) (routes : list Route) (requests : Z),
    _send_zdo zdo_callback (route_table_environment table c budget) s
    = (Ok tt, final)
    /\ len (sent_packets (xb final)) = len (sent_packets (xb s)) + requests
    /\ (requests - 1) * Z.of_nat c < len table <= requests * Z.of_nat c
    /\ __routes (vars final) = Some routes
    /\ List.length routes = List.length table
    /\ routes = map route_of_entry table
    /\ _lock final = true
    /\ _running final = false
    /\ _error final = None.
Proof.
  intros Hcluster Htid Hhealthy Htable Hc Hbudget.
  destruct (exchange_reads_table s table c budget zdo_callback Hcluster Htid
              Hhealthy Htable Hc Hbudget)
    as (final & Hrun & Hsent & Hroutes & Hlock & Herror & Hrunning & _).
  exists final, (map route_of_entry table),
    (requests_needed (len table) (Z.of_nat c)).
  split; [exact Hrun|]. split; [exact Hsent|].
  split; [apply requests_needed_ceiling; lia|].
  split; [exact Hroutes|]. split; [apply length_map|].
  split; [reflexivity|]. auto.
Qed.

Lemma skipn_nil_any {A} (n : nat) : skipn n (@nil A) = [].
Proof. now destruct n. Qed.

Lemma empty_table_device (c1 c2 : nat) (p : ExplicitAddressingPacket) :
  route_table_device [] c1 p = route_table_device [] c2 p.
Proof.
  unfold route_table_device, route_table_response.
  destruct (rf_data p) as [|tid [|start [|]]]; try reflexivity.
  rewrite skipn_nil_any. now destruct c1, c2.
Qed.

(** C5. For every table of at most 255 entries, an exchange with a device
    that answers one entry at a time and an exchange with a device that
    answers with all the entries at once leave the reader with the same
    list of routes (the routes of the table's entries, in order, when the
    table is not empty). *)
Theorem rechunking_same_routes (s : RTReader) (table : list RouteEntry)
    (budget : nat) (zdo_callback : bool) :
  __receive_cluster_id s = RouteTableReader__RECEIVE_CLUSTER_ID ->
  is_byte (_current_transaction_id s) = true ->
  healthy (xb s) ->
  (List.length table <= 255)%nat ->
  (3 * List.length table <= budget)%nat ->
  let one_by_one :=
    snd (_send_zdo zdo_callback (route_table_environment table 1 budget) s) in
  let all_at_once :=
    snd (_send_zdo zdo_callback
           (route_table_environment table (List.length table) budget) s) in
  __routes (vars one_by_one) = __routes (vars all_at_once)
  /\ (table <> [] ->
      __routes (vars all_at_once) = Some (map route_of_entry table)).
Proof.
  intros Hcluster Htid Hhealthy Htable Hbudget one_by_one all_at_once.
  destruct table as [|e table].
  - split; [|congruence]. subst one_by_one all_at_once.
    rewrite (send_zdo_same_answers zdo_callback
               (route_table_environment [] 1 budget)
               (route_table_environment [] (List.length (@nil RouteEntry))
                  budget) s); [reflexivity| |reflexivity].
    intros p. apply empty_table_device.
  - destruct (exchange_reads_table s (e :: table) 1 budget zdo_callback
                Hcluster Htid Hhealthy ltac:(cbn [List.length] in *; lia)
                ltac:(lia) Hbudget)
      as (final1 & Hrun1 & _ & Hroutes1 & _).
    destruct (exchange_reads_table s (e :: table) (List.length (e :: table))
                budget zdo_callback Hcluster Htid Hhealthy
                ltac:(cbn [List.length] in *; lia)
                ltac:(cbn [List.length]; lia) Hbudget)
      as (final2 & Hrun2 & _ & Hroutes2 & _).
    subst one_by_one all_at_once. rewrite Hrun1, Hrun2. cbn [snd].
    split; [now rewrite Hroutes1, Hroutes2|]. intros _. exact Hroutes2.
Qed.

(** C9. An answer with status 0 whose entry count (byte 2 of the payload)
    is 0, handled by a running reader whose radio can send: [_parse_data]
    sends the request again with the same index and returns [True]; the
    callback records the reading as complete; and when the transmit status
    had already arrived, the command stops there (the event is set, the wait
    of [_send_zdo] is over whatever is still to arrive, the error is what it
    was) although the request just sent has had no answer. *)
Theorem zero_entries_retry_completes (s : RTReader)
    (frame : ExplicitRXIndicatorPacket) (total start : Z) (rest : list Z) :
  _running s = true ->
  address_mismatch s frame = false ->
  rx_profile_id frame = _PROFILE_ID ->
  rx_source_endpoint frame = _SOURCE_ENDPOINT ->
  rx_dest_endpoint frame = _DESTINATION_ENDPOINT ->
  rx_cluster_id frame = __receive_cluster_id s ->
  rx_rf_data frame
  = _current_transaction_id s :: __STATUS_SUCCESS
      :: total :: start :: 0 :: rest ->
  is_byte (_current_transaction_id s) = true ->
  is_byte (__index (vars s)) = true ->
  next_outcome (send_packet_errors (xb s)) = None ->
  let s1 := sent_request (with_total total (set_received_answer true s)) in
  let s2 := after_empty_answer total s in
  RouteTableReader_parse_data (total :: start :: 0 :: rest)
    (set_received_answer true s) = (Ok true, s1)
  /\ sent_packets (xb s1)
     = sent_packets (xb s) ++ [request_packet s (__index (vars s))]
  /\ __index (vars s1) = __index (vars s)
  /\ _zdo_packet_callback (EXPLICIT_RX_INDICATOR frame) s = (Ok tt, s2)
  /\ _data_parsed s2 = true
  /\ (_received_status s = true ->
      _lock s2 = true
      /\ _error s2 = _error s
      /\ sent_packets (xb s2) = sent_packets (xb s1)
      /\ forall answer budget handled pending,
           _lock_wait answer budget handled pending s2 = (Ok tt, s2)).
Proof.
  intros Hrun Haddr Hprof Hsrc Hdst Hcl Hdata Htid Hidx Hsend s1 s2.
  split.
  { rewrite parse_data_no_entries. unfold bind.
    rewrite get_next_routes_sends by assumption. reflexivity. }
  split; [reflexivity|]. split; [reflexivity|].
  split.
  { now apply (callback_no_entries s frame total start rest). }
  split.
  { subst s2. unfold after_empty_answer.
    destruct (_received_status s); [|reflexivity].
    now rewrite (proj1 (proj2 (proj2 (proj2 (stopped_frame _))))). }
  intros Hack. subst s2. unfold after_empty_answer. rewrite Hack.
  fold s1.
  pose proof (stopped_frame (set_data_parsed true s1))
    as (_ & Hx & He & _).
  split; [apply stopped_lock|].
  split; [now rewrite He|].
  split; [now rewrite Hx|].
  intros. apply lock_wait_over, stopped_lock.
Qed.

End RouteTableProperties.

Lemma idle_radio_healthy : healthy idle_radio.
Proof. repeat split; try reflexivity. discriminate. Qed.

Lemma pagination_terminates_witness :
  __receive_cluster_id table_reader = RouteTableReader__RECEIVE_CLUSTER_ID
  /\ is_byte (_current_transaction_id table_reader) = true
  /\ healthy (xb table_reader)
  /\ (1 <= List.length sample_table <= 255)%nat
  /\ (1 <= 2)%nat
  /\ (3 * List.length sample_table <= 9)%nat
  /\ exists (final : ZDOCommand RouteTableReader_vars) (routes : list Route)
        (requests : Z),
       _send_zdo (E := sample_externals)
         (variant := RouteTableReader_variant (E := sample_externals))
         false (route_table_environment sample_table 2 9) table_reader
       = (Ok tt, final)
       /\ len (sent_packets (xb final))
          = len (sent_packets (xb table_reader)) + requests
       /\ (requests - 1) * Z.of_nat 2 < len sample_table
          <= requests * Z.of_nat 2
       /\ __routes (vars final) = Some routes
       /\ List.length routes = List.length sample_table
       /\ routes = map route_of_entry sample_table
       /\ _lock final = true
       /\ _running final = false
       /\ _error final = None.
Proof.
  split; [reflexivity|]. split; [reflexivity|].
  split; [exact idle_radio_healthy|].
  split; [simpl; lia|]. split; [lia|]. split; [simpl; lia|].
  apply (@pagination_terminates sample_externals table_reader sample_table
           2 9 false eq_refl eq_refl idle_radio_healthy);
    simpl; lia.
Defined.

Lemma rechunking_same_routes_witness :
  __receive_cluster_id table_reader = RouteTableReader__RECEIVE_CLUSTER_ID
  /\ is_byte (_current_transaction_id table_reader) = true
  /\ healthy (xb table_reader)
  /\ (List.length sample_table <= 255)%nat
  /\ (3 * List.length sample_table <= 9)%nat
  /\ __routes
       (vars (snd (_send_zdo (E := sample_externals)
                     (variant := RouteTableReader_variant
                                   (E := sample_externals))
                     false (route_table_environment sample_table 1 9)
                     table_reader)))
     = __routes
         (vars (snd (_send_zdo (E := sample_externals)
                       (variant := RouteTableReader_variant
                                     (E := sample_externals))
                       false
                       (route_table_environment sample_table
                          (List.length sample_table) 9)
                       table_reader))).
Proof.
  split; [reflexivity|]. split; [reflexivity|].
  split; [exact idle_radio_healthy|].
  split; [simpl; lia|]. split; [simpl; lia|].
  refine (proj1 (@rechunking_same_routes sample_externals table_reader
                   sample_table 9 false eq_refl eq_refl idle_radio_healthy
                   _ _));
    simpl; lia.
Defined.

Lemma zero_entries_retry_completes_witness :
  _running acknowledged_table_reader = true
  /\ address_mismatch (E := sample_externals) acknowledged_table_reader
       empty_answer = false
  /\ rx_rf_data empty_answer
     = _current_transaction_id acknowledged_table_reader :: __STATUS_SUCCESS
         :: [2; 0; 0]
  /\ _received_status acknowledged_table_reader = true
  /\ _zdo_packet_callback (E := sample_externals)
       (variant := RouteTableReader_variant (E := sample_externals))
       (EXPLICIT_RX_INDICATOR empty_answer) acknowledged_table_reader
     = (Ok tt, after_empty_answer 2 acknowledged_table_reader)
  /\ _lock (after_empty_answer 2 acknowledged_table_reader) = true
  /\ map rf_data
       (sent_packets (xb (after_empty_answer 2 acknowledged_table_reader)))
     = [[9; 0]].
Proof.
  split; [reflexivity|]. split; [reflexivity|]. split; [reflexivity|].
  split; [reflexivity|].
  destruct (@zero_entries_retry_completes sample_externals
              acknowledged_table_reader empty_answer 2 0 []
              eq_refl eq_refl eq_refl eq_refl eq_refl eq_refl eq_refl eq_refl
              eq_refl eq_refl) as (_ & _ & _ & Hcb & _ & Hstop).
  split; [exact Hcb|].
  split; [apply (Hstop eq_refl)|reflexivity].
Defined.



Lemma unrecognized_status_is_absent_witness :
  5 <= utils.get_int_from_byte 0x2F 0 3 <= 7
  /\ exists r,
       __parse_route [0x03; 0x00; 0x2F; 0x02; 0x00] = Ok r
       /\ status r = None
       /\ status r <> Some UNKNOWN.
Proof.
  split; [vm_compute; split; discriminate|].
  apply (unrecognized_status_is_absent 0x03 0x00 0x2F 0x02 0x00).
  vm_compute; split; discriminate.
Defined.

(** C3 as stated does not hold: the entry [0x03, 0x00, 0x05, 0x02, 0x00],
    whose status field is 5, decodes to a route whose status is absent and
    not the [UNKNOWN] member. *)
Lemma status_five_is_not_unknown :
  utils.get_int_from_byte 0x05 0 3 = 5
  /\ exists r,
       __parse_route [0x03; 0x00; 0x05; 0x02; 0x00] = Ok r
       /\ status r = None
       /\ status r <> Some UNKNOWN.
Proof.
  split; [reflexivity|]. eexists. split; [reflexivity|].
  split; [reflexivity|]. discriminate.
Qed.

(** The route-table scenario: an answer that reports two entries and
    carries [0x01, 0x00, 0x00, 0x00, 0x00] and [0x02, 0x00, 0x09, 0x01,
    0x00] gives the routes to 0x0001 through 0x0000, active and with no
    flag, and to 0x0002 through 0x0001, with discovery under way (status
    field 1) and the low-memory flag; the reading is complete and nothing
    more is asked for. *)
Lemma route_table_scenario :
  let result :=
    RouteTableReader_parse_data (E := sample_externals)
      scenario_table_payload acknowledged_table_reader in
  fst result = Ok true
  /\ __routes (vars (snd result))
     = Some [ {| destination := XBee16BitAddress.from_bytes 0x00 0x01;
                 next_hop := XBee16BitAddress.from_bytes 0x00 0x00;
                 status := Some ACTIVE;
                 is_low_memory := false;
                 is_many_to_one := false;
                 is_route_record_required := false |};
              {| destination := XBee16BitAddress.from_bytes 0x00 0x02;
                 next_hop := XBee16BitAddress.from_bytes 0x00 0x01;
                 status := Some DISCOVERY_UNDERWAY;
                 is_low_memory := true;
                 is_many_to_one := false;
                 is_route_record_required := false |} ]
  /\ __index (vars (snd result)) = 2
  /\ sent_packets (xb (snd result)) = [].
Proof. vm_compute. repeat split; reflexivity. Qed.
